(** * Bioimpedance simulation: the impedance engine and its UI glue

    A shallow embedding of the three versions of the widget:

    - [Original]            src/bioimpedancesimulation.jsx (fixed 1..100 kHz,
                            manual L-Dex calculator);
    - [FrequencySelection]  part_000 (frequency bounds, selected frequency);
    - [DualLimb]            part_001 (two limbs, CSV export).

    The code is read twice.

    The exact reading.  A JavaScript number is an IEEE double; in the
    modules [Original], [FrequencySelection] and [DualLimb] the arithmetic
    is the exact one: a finite number is a real of [R], and rounding,
    overflow and the sign of zero are not modelled.  A fluid level is a
    finite number (the sliders deliver nothing else).  Numbers that the code
    obtains from [parseInt] or from array indices are integral and are kept
    in [Z], so that arrays of frequencies compute.  Arrays are lists, of any
    length.  This reading is the code's up to rounding while integers stay
    exact in a double and arrays within the length an engine allows
    ([bounds_within_limits]).

    The reading on doubles.  The module [Double] is the same code on
    binary64 numbers; it computes, and shows what the code does beyond those
    limits and where rounding decides. *)

From Stdlib Require Import Reals Lra Lia ZArith List String Ascii Bool DecimalString.
From Stdlib Require PrimFloat FloatOps SpecFloat.
Import ListNotations.

Set Warnings "-inexact-float".

Local Open Scope Z_scope.
Local Open Scope R_scope.

(** ** Numbers *)

(** The result of [parseInt], and the content of the frequency state cells:
    an integral number or NaN. *)
Inductive intnum : Type :=
| INaN
| Int (z : Z).

(** A number as [parseFloat] and [Math.log10] deliver it. *)
Inductive number : Type :=
| NaN
| NegInfinity
| PosInfinity
| Num (r : R).

(** ** Arrays *)

(** [Array.from({ length: n }, (_, i) => mapfn i)]: the indices 0 .. n-1 in
    order, each mapped.  [ToLength] turns NaN and negative lengths into 0. *)
Definition ToLength (len : intnum) : nat :=
  match len with
  | INaN => 0%nat
  | Int z => Z.to_nat z
  end.

Definition Array_from {A : Type} (len : intnum) (mapfn : nat -> A) : list A :=
  map mapfn (seq 0 (ToLength len)).

(** Arithmetic on integral numbers: NaN is absorbing. *)
Definition iadd (a b : intnum) : intnum :=
  match a, b with
  | Int x, Int y => Int (x + y)
  | _, _ => INaN
  end.

Definition isub (a b : intnum) : intnum :=
  match a, b with
  | Int x, Int y => Int (x - y)
  | _, _ => INaN
  end.

(** The value of an integral array element as a frequency.  An element is
    only ever produced for a non-NaN lower bound (a NaN bound gives length
    0), so the NaN case is never evaluated by [Array_from]. *)
Definition int_value (a : intnum) : Z :=
  match a with
  | INaN => 0%Z
  | Int z => z
  end.

(** [arr.indexOf(x)] on an array of integers: first index holding [x], or
    -1.  The searched value may be NaN, which is equal to nothing. *)
Fixpoint index_from (l : list Z) (x : Z) (i : Z) : Z :=
  match l with
  | [] => (-1)%Z
  | y :: l' => if Z.eqb y x then i else index_from l' x (i + 1)%Z
  end.

Definition indexOf (l : list Z) (x : intnum) : Z :=
  match x with
  | INaN => (-1)%Z
  | Int z => index_from l z 0%Z
  end.

(** ** The [Math] object *)

(** On finite numbers; [generateImpedanceData] applies [sqrt] to a number
    that is at least 1 and divides by a number that is at least 1 (see
    [denominator_ge_1]), where these agree with the reals. *)
Module Math.
Definition PI : R := Rtrigo1.PI.
Definition sqrt (x : R) : R := R_sqrt.sqrt x.
(** [Math.pow(b, 2)]; the code only uses the exponent 2. *)
Definition pow (b : R) (e : nat) : R := b ^ e.

Definition log10 (x : number) : number :=
  match x with
  | NaN | NegInfinity => NaN
  | PosInfinity => PosInfinity
  | Num r =>
      if Rlt_dec r 0 then NaN
      else if Req_dec_T r 0 then NegInfinity
      else Num (ln r / ln 10)
  end.

Definition abs (x : number) : number :=
  match x with
  | NaN => NaN
  | NegInfinity | PosInfinity => PosInfinity
  | Num r => Num (Rabs r)
  end.
End Math.

(** [!x] on a number: true for NaN and for zero. *)
Definition falsy (x : number) : bool :=
  match x with
  | NaN => true
  | NegInfinity | PosInfinity => false
  | Num r => if Req_dec_T r 0 then true else false
  end.

Definition infinity (negative : bool) : number :=
  if negative then NegInfinity else PosInfinity.

Definition negative (r : R) : bool :=
  if Rlt_dec r 0 then true else false.

(** [a / b].  A zero divisor counts as +0. *)
Definition ndiv (a b : number) : number :=
  match a, b with
  | NaN, _ | _, NaN => NaN
  | Num x, Num y =>
      if Req_dec_T y 0
      then (if Req_dec_T x 0 then NaN else infinity (negative x))
      else Num (x / y)
  | Num _, _ => Num 0
  | NegInfinity, Num y => infinity (negb (negative y))
  | PosInfinity, Num y => infinity (negative y)
  | _, _ => NaN
  end.

(** [a * b]. *)
Definition nmul (a b : number) : number :=
  match a, b with
  | NaN, _ | _, NaN => NaN
  | Num x, Num y => Num (x * y)
  | Num x, NegInfinity | NegInfinity, Num x =>
      if Req_dec_T x 0 then NaN else infinity (negb (negative x))
  | Num x, PosInfinity | PosInfinity, Num x =>
      if Req_dec_T x 0 then NaN else infinity (negative x)
  | NegInfinity, NegInfinity | PosInfinity, PosInfinity => PosInfinity
  | _, _ => NegInfinity
  end.

(** [a < b]: false as soon as one side is NaN. *)
Definition nlt (a b : number) : bool :=
  match a, b with
  | NaN, _ | _, NaN => false
  | _, NegInfinity => false
  | NegInfinity, _ => true
  | PosInfinity, _ => false
  | Num _, PosInfinity => true
  | Num x, Num y => if Rlt_dec x y then true else false
  end.

(** ** Strings of numbers *)

Local Open Scope string_scope.

Fixpoint repeat_zero (n : nat) : string :=
  match n with
  | O => ""
  | S k => "0" ++ repeat_zero k
  end.

(** The digits of [Number.prototype.toFixed] for a finite [x] with
    [0 <= x < 1e21]: the integer [n] nearest to [x * 10^f] (the larger one on
    a tie), padded with zeros to [f + 1] digits, with a point before the
    last [f]. *)
Definition fixed_digits (x : R) (f : nat) : string :=
  let n := Zfloor (x * 10 ^ f + / 2) in
  let m := NilZero.string_of_uint (N.to_uint (Z.to_N n)) in
  let m := repeat_zero (f + 1 - String.length m) ++ m in
  let k := String.length m in
  match f with
  | O => m
  | _ => substring 0 (k - f) m ++ "." ++ substring (k - f) f m
  end.

Section NumberToString.

(** [Number::toString], the shortest decimal string that reads back as
    the double: a function of the floating-point representation, kept
    abstract. *)
Variable ToString : R -> string.

(** [x.toFixed(f)] *)
Definition toFixed (x : number) (f : nat) : string :=
  match x with
  | NaN => "NaN"
  | NegInfinity => "-Infinity"
  | PosInfinity => "Infinity"
  | Num r =>
      let s := if Rlt_dec r 0 then "-" else "" in
      let x := Rabs r in
      let m := if Rle_dec 1e21 x then ToString x else fixed_digits x f in
      s ++ m
  end.

End NumberToString.

(** ** [parseInt] *)

(** [parseInt(s)] without a radix: white space is skipped (here the ASCII
    white space characters), then a sign, then a [0x] prefix selecting radix
    16, then the longest run of digits; NaN when that run is empty. *)
Definition is_white_space (c : ascii) : bool :=
  let n := nat_of_ascii c in
  ((9 <=? n) && (n <=? 13) || (n =? 32))%nat.

Fixpoint trim_start (s : string) : string :=
  match s with
  | String c s' => if is_white_space c then trim_start s' else s
  | EmptyString => s
  end.

Definition digit_value (radix : Z) (c : ascii) : option Z :=
  let n := Z.of_nat (nat_of_ascii c) in
  let d :=
    if ((48 <=? n) && (n <=? 57))%Z then Some (n - 48)%Z
    else if ((97 <=? n) && (n <=? 122))%Z then Some (n - 87)%Z
    else if ((65 <=? n) && (n <=? 90))%Z then Some (n - 55)%Z
    else None in
  match d with
  | Some v => if (v <? radix)%Z then Some v else None
  | None => None
  end.

Fixpoint parse_digits (radix : Z) (s : string) (acc : option Z) : option Z :=
  match s with
  | String c s' =>
      match digit_value radix c with
      | Some d =>
          parse_digits radix s'
            (Some (radix * match acc with Some a => a | None => 0 end + d)%Z)
      | None => acc
      end
  | EmptyString => acc
  end.

Definition parseInt (s : string) : intnum :=
  let inputS := trim_start s in
  let '(sign, inputS) :=
    match inputS with
    | String "-" rest => ((-1)%Z, rest)
    | String "+" rest => (1%Z, rest)
    | _ => (1%Z, inputS)
    end in
  let '(radix, inputS) :=
    match inputS with
    | String "0" (String "x" rest) | String "0" (String "X" rest) =>
        (16%Z, rest)
    | _ => (10%Z, inputS)
    end in
  match parse_digits radix inputS None with
  | None => INaN
  | Some mathInt => Int (sign * mathInt)
  end.

(** ** Values, array access and method calls *)

(** What a variable of the render code may hold. *)
Inductive value : Type :=
| VNumber (r : R)
| VString (s : string)
| VUndefined.

(** [arr[i]]: [undefined] outside the array. *)
Definition array_get (arr : list R) (i : Z) : value :=
  if (i <? 0)%Z then VUndefined
  else match nth_error arr (Z.to_nat i) with
       | Some r => VNumber r
       | None => VUndefined
       end.

(** [arr.push(x)] *)
Definition push {A : Type} (arr : list A) (x : A) : list A :=
  (arr ++ [x])%list.

(** [arr.forEach((x, i) => ...)] with the callback's effect on a state. *)
Fixpoint forEach_from {A S : Type} (callback : S -> A -> nat -> S)
  (arr : list A) (i : nat) (st : S) : S :=
  match arr with
  | [] => st
  | x :: arr' => forEach_from callback arr' (Datatypes.S i) (callback st x i)
  end.

Definition forEach {A S : Type} (callback : S -> A -> nat -> S)
  (arr : list A) (st : S) : S :=
  forEach_from callback arr 0%nat st.

(** Outcome of an expression that may throw. *)
Inductive outcome (A : Type) : Type :=
| Returns (a : A)
| TypeError
| RangeError.
Arguments Returns {A} a.
Arguments TypeError {A}.
Arguments RangeError {A}.

Section MethodCalls.

Variable ToString : R -> string.

(** [v.toFixed(f)]: only numbers have the method; on a string the
    property is undefined, on [undefined] it cannot be read, and the call
    throws in both cases. *)
Definition call_toFixed (v : value) (f : nat) : outcome string :=
  match v with
  | VNumber r => Returns (toFixed ToString (Num r) f)
  | VString _ => TypeError
  | VUndefined => TypeError
  end.

(** [`${v}`]: a value inside a template literal. *)
Definition template (v : value) : string :=
  match v with
  | VNumber r => ToString r
  | VString s => s
  | VUndefined => "undefined"
  end.

End MethodCalls.

(** ** The impedance generator *)

Record ImpedanceData : Type := mkImpedanceData {
  frequencies : list Z;
  impedanceData : list R
}.

(** The body of [generateImpedanceData] after the frequencies, the same
    text in the three files; each [const] is a definition of what it
    depends on. *)
Definition R0 : R := 1000.
Definition C0 : R := 1e-9.

Definition fluidFactor (fluidLevel : R) : R := 1 - fluidLevel * 0.6.

Definition resistance (fluidLevel : R) : R := R0 * fluidFactor fluidLevel.

Definition capacitance (fluidLevel : R) : R := C0 * (1 + fluidLevel * 3).

Definition omega (f : Z) : R := 2 * Math.PI * IZR f * 1000.

Definition denom (resistance capacitance : R) (f : Z) : R :=
  1 + Math.pow (omega f * resistance * capacitance) 2.

(** The callback of [frequencies.map]; its result is the source's [Z]. *)
Definition impedance (resistance capacitance : R) (f : Z) : R :=
  resistance / Math.sqrt (denom resistance capacitance f).

(** The original version: frequencies fixed to 1..100 kHz. *)
Module Original.

Definition generateImpedanceData (fluidLevel : R) : ImpedanceData :=
  let frequencies := Array_from (Int 100) (fun i => (Z.of_nat i + 1)%Z) in
  let resistance := resistance fluidLevel in
  let capacitance := capacitance fluidLevel in
  let impedanceData := map (impedance resistance capacitance) frequencies in
  mkImpedanceData frequencies impedanceData.

Record State : Type := mkState {
  fluidLevel : R;
  voltageAffected : string;
  currentAffected : string;
  voltageUnaffected : string;
  currentUnaffected : string;
  manualLDex : option string;
  manualMessage : string
}.

Definition initial_state : State :=
  mkState 0.2 "" "" "" "" None "".

Definition setManualLDex (v : string) (st : State) : State :=
  mkState (fluidLevel st) (voltageAffected st) (currentAffected st)
          (voltageUnaffected st) (currentUnaffected st)
          (Some v) (manualMessage st).

Definition setManualMessage (m : string) (st : State) : State :=
  mkState (fluidLevel st) (voltageAffected st) (currentAffected st)
          (voltageUnaffected st) (currentUnaffected st)
          (manualLDex st) m.

Section ManualLDex.

(** [parseFloat] is kept abstract: the code only depends on whether its
    result is NaN, zero, or another number. *)
Variable parseFloat : string -> number.
Variable ToString : R -> string.

Definition calculateManualLDex (st : State) : State :=
  let vA := parseFloat (voltageAffected st) in
  let iA := parseFloat (currentAffected st) in
  let vU := parseFloat (voltageUnaffected st) in
  let iU := parseFloat (currentUnaffected st) in
  if falsy vA || falsy iA || falsy vU || falsy iU then
    setManualMessage "Please fill all voltage and current values." st
  else
    let zA := ndiv vA iA in
    let zU := ndiv vU iU in
    let lDexVal := nmul (Math.log10 (ndiv zA zU)) (Num 10) in
    let st := setManualLDex (toFixed ToString lDexVal 2) st in
    let message :=
      if nlt (Math.abs lDexVal) (Num 3) then
        "Normal fluid levels."
      else if nlt (Math.abs lDexVal) (Num 10) then
        "Mild to moderate fluid buildup."
      else
        "Significant fluid buildup. Please consult a specialist." in
    setManualMessage message st.

End ManualLDex.

End Original.

(** The version with frequency bounds and a selected frequency. *)
Module FrequencySelection.

Definition generateImpedanceData (fluidLevel : R) (minFreq maxFreq : intnum)
  : ImpedanceData :=
  let frequencies :=
    Array_from (iadd (isub maxFreq minFreq) (Int 1))
               (fun i => int_value (iadd (Int (Z.of_nat i)) minFreq)) in
  let resistance := resistance fluidLevel in
  let capacitance := capacitance fluidLevel in
  let impedanceData := map (impedance resistance capacitance) frequencies in
  mkImpedanceData frequencies impedanceData.

Record State : Type := mkState {
  fluidLevel : R;
  minFreq : intnum;
  maxFreq : intnum;
  selectedFreq : intnum
}.

Definition initial_state : State :=
  mkState 0.2 (Int 1) (Int 100) (Int 50).

(** The [onChange] handlers of the two number inputs and of the
    frequency slider; [value] is [e.target.value]. *)
Definition onChangeMinFreq (value : string) (st : State) : State :=
  mkState (fluidLevel st) (parseInt value) (maxFreq st) (selectedFreq st).

Definition onChangeMaxFreq (value : string) (st : State) : State :=
  mkState (fluidLevel st) (minFreq st) (parseInt value) (selectedFreq st).

Definition onChangeSelectedFreq (value : string) (st : State) : State :=
  mkState (fluidLevel st) (minFreq st) (maxFreq st) (parseInt value).

(** The values computed by one render. *)
Definition data (st : State) : ImpedanceData :=
  generateImpedanceData (fluidLevel st) (minFreq st) (maxFreq st).

Definition selectedIndex (st : State) : Z :=
  indexOf (frequencies (data st)) (selectedFreq st).

Definition selectedImpedance (st : State) : value :=
  if negb (selectedIndex st =? -1)%Z
  then array_get (impedanceData (data st)) (selectedIndex st)
  else VString "N/A".

Definition fluidPercentage (st : State) : R := fluidLevel st * 100.

Definition lDexIndex (st : State) : R := fluidPercentage st / 10.

Definition conclusion (st : State) : string :=
  if Rlt_dec (lDexIndex st) 3 then "Normal"
  else if Rlt_dec (lDexIndex st) 7 then "Elevated"
  else "Abnormal".

(** The expression [selectedImpedance.toFixed(2)] of the JSX. *)
Definition render_selectedImpedance (ToString : R -> string) (st : State)
  : outcome string :=
  call_toFixed ToString (selectedImpedance st) 2.

End FrequencySelection.

(** The dual-limb version; its generator is textually the one above. *)
Module DualLimb.

Definition generateImpedanceData (fluidLevel : R) (minFreq maxFreq : intnum)
  : ImpedanceData :=
  let frequencies :=
    Array_from (iadd (isub maxFreq minFreq) (Int 1))
               (fun i => int_value (iadd (Int (Z.of_nat i)) minFreq)) in
  let resistance := resistance fluidLevel in
  let capacitance := capacitance fluidLevel in
  let impedanceData := map (impedance resistance capacitance) frequencies in
  mkImpedanceData frequencies impedanceData.

Record State : Type := mkState {
  darkMode : bool;
  leftFluid : R;
  rightFluid : R;
  minFreq : intnum;
  maxFreq : intnum
}.

Definition initial_state : State :=
  mkState false 0.2 0.2 (Int 1) (Int 100).

Definition onChangeMinFreq (value : string) (st : State) : State :=
  mkState (darkMode st) (leftFluid st) (rightFluid st)
          (parseInt value) (maxFreq st).

Definition onChangeMaxFreq (value : string) (st : State) : State :=
  mkState (darkMode st) (leftFluid st) (rightFluid st)
          (minFreq st) (parseInt value).

Definition left (st : State) : ImpedanceData :=
  generateImpedanceData (leftFluid st) (minFreq st) (maxFreq st).

Definition right (st : State) : ImpedanceData :=
  generateImpedanceData (rightFluid st) (minFreq st) (maxFreq st).

Definition lDexLeft (st : State) : R := (leftFluid st * 100) / 10.

Definition lDexRight (st : State) : R := (rightFluid st * 100) / 10.

Definition lDexDiff (st : State) : R := Rabs (lDexLeft st - lDexRight st).

Definition conclusion (st : State) : string :=
  if Rlt_dec (lDexDiff st) 2 then "Normal"
  else if Rlt_dec (lDexDiff st) 4 then "Slight Asymmetry"
  else "Significant Asymmetry".

(** What [saveAs(new Blob([text], { type }), name)] hands to the
    browser. *)
Record SavedFile : Type := mkSavedFile {
  text : string;
  type : string;
  name : string
}.

Section CsvExport.

Variable ToString : R -> string.

(** The rows built by [exportToCSV] before they are joined. *)
Definition csvRows (st : State) : list string :=
  let rows := ["Frequency,Left Impedance,Right Impedance"] in
  forEach
    (fun rows f i =>
       push rows
         (ToString (IZR f) ++ "," ++
          template ToString
            (array_get (impedanceData (left st)) (Z.of_nat i)) ++ "," ++
          template ToString
            (array_get (impedanceData (right st)) (Z.of_nat i))))
    (frequencies (left st)) rows.

Definition exportToCSV (st : State) : SavedFile :=
  let rows := csvRows st in
  mkSavedFile (String.concat (String "010" "") rows)
              "text/csv" "impedance_data.csv".

End CsvExport.

End DualLimb.

(** [a <= b] on integral numbers: false as soon as one side is NaN. *)
Definition ile (a b : intnum) : bool :=
  match a, b with
  | Int x, Int y => (x <=? y)%Z
  | _, _ => false
  end.

(** [minFreq <= selectedFreq && selectedFreq <= maxFreq] *)
Definition selected_in_range (st : FrequencySelection.State) : bool :=
  ile (FrequencySelection.minFreq st) (FrequencySelection.selectedFreq st)
  && ile (FrequencySelection.selectedFreq st) (FrequencySelection.maxFreq st).

(** The impedance that a series holds for the frequency [f]: the entry at
    the index of [f] among the frequencies, as the render code reads it. *)
Definition impedance_at (d : ImpedanceData) (f : Z) : value :=
  array_get (impedanceData d) (indexOf (frequencies d) (Int f)).

(** A reader of whole decimal numerals, in the place of [parseFloat] for
    sample runs: the two agree on such numerals and on the empty string. *)
Definition parseWholeNumber (s : string) : number :=
  match parseInt s with
  | INaN => NaN
  | Int z => Num (IZR z)
  end.

(** ** The formula as the specification words it *)

(** Resistance [R = R0 (1 - 0.6 fluid)], capacitance [C = C0 (1 + 3 fluid)]
    and impedance [R / sqrt (1 + (2 pi f 1000 R C)^2)] at the frequency [f]
    (in kHz), with [R0 = 1000] and [C0 = 1e-9]. *)
Definition spec_R (x : R) : R := 1000 * (1 - 0.6 * x).

Definition spec_C (x : R) : R := 1e-9 * (1 + 3 * x).

Definition spec_impedance (x : R) (f : R) : R :=
  spec_R x / R_sqrt.sqrt (1 + (2 * Rtrigo1.PI * f * 1000 * spec_R x * spec_C x) ^ 2).

(** A series that lists the consecutive integers [lo .. hi] and, at each
    index, the specified impedance of the frequency at that index. *)
Definition series_meets_spec (x : R) (lo hi : Z) (d : ImpedanceData) : Prop :=
  Z.of_nat (List.length (frequencies d)) = (hi - lo + 1)%Z /\
  List.length (impedanceData d) = List.length (frequencies d) /\
  forall i : nat, (i < List.length (frequencies d))%nat ->
    nth_error (frequencies d) i = Some (lo + Z.of_nat i)%Z /\
    nth_error (impedanceData d) i
    = Some (spec_impedance x (IZR (lo + Z.of_nat i))).

(** ** The result panel of the manual calculator *)

(** [{manualLDex && (<div> ... {manualLDex} ... {manualMessage} ... </div>)}]
    in the original version: the panel with the index and the message is
    rendered only for a truthy [manualLDex], that is a non-empty string;
    [null] and the empty string render nothing. *)
Definition manualPanel (st : Original.State) : option (string * string) :=
  match Original.manualLDex st with
  | None => None
  | Some EmptyString => None
  | Some v => Some (v, Original.manualMessage st)
  end.

(** The check [!vA || !iA || !vU || !iU] on the parsed fields of a screen. *)
Definition some_field_falsy (parseFloat : string -> number)
  (st : Original.State) : bool :=
  falsy (parseFloat (Original.voltageAffected st))
  || falsy (parseFloat (Original.currentAffected st))
  || falsy (parseFloat (Original.voltageUnaffected st))
  || falsy (parseFloat (Original.currentUnaffected st)).

(** ** The fluid level shown under a slider *)

(** [(fluidLevel * 100).toFixed(0)], the percentage printed by the three
    versions ([fluidPercentage.toFixed(0)] in the second one). *)
Definition fluidLevelLabel (ToString : R -> string) (fluidLevel : R) : string :=
  toFixed ToString (Num (fluidLevel * 100)) 0.

(** ** Limits of the exact reading *)

(** The exact reading above is the code's only while the engine's limits are
    not met: integers are exact doubles up to [2^53], and [Array.from]
    refuses a length of [2^32] or more.  [Double] below has both limits. *)
Definition safe_integer (z : Z) : Prop := (- 2 ^ 53 <= z <= 2 ^ 53)%Z.

(** Bounds that are integers exact in a double, and a number of frequencies
    that an array can hold. *)
Definition bounds_within_limits (lo hi : Z) : Prop :=
  safe_integer lo /\ safe_integer hi /\ (hi - lo + 1 < 2 ^ 32)%Z.

(** A screen of the frequency-selection version whose bounds, when both
    are numbers, are within these limits (a NaN bound gives no frequency at
    all). *)
Definition state_within_limits (st : FrequencySelection.State) : Prop :=
  match FrequencySelection.minFreq st, FrequencySelection.maxFreq st with
  | Int lo, Int hi => bounds_within_limits lo hi
  | _, _ => True
  end.

(** The [n] integers from [lo] on. *)
Definition Z_range (lo : Z) (n : nat) : list Z :=
  map (fun i => (lo + Z.of_nat i)%Z) (seq 0 n).

(** * The code on doubles

    The same code on IEEE binary64 numbers, where it computes: sums,
    products, quotients, square roots and comparisons are the correctly
    rounded ones of [PrimFloat], NaN, the infinities and the signed zeros
    included.  Two library functions are not fixed to the last bit by
    ECMAScript: [Math.pow(y, 2)] is taken as the rounded square [y * y], and
    [Math.log10] is a parameter of the code that calls it. *)
Module Double.
Import PrimFloat.
Local Open Scope float_scope.

(** The double nearest to an integer (ties to even, infinity on overflow):
    the value of an integer numeral. *)
Definition of_Z (z : Z) : float :=
  FloatOps.SF2Prim
    (SpecFloat.binary_normalize FloatOps.prec FloatOps.emax z 0 false).

(** [parseInt(s)]: the integer read by [parseInt] above, as a double.  (The
    sign of a zero result is not kept; no code here divides by it.) *)
Definition parseInt (s : string) : float :=
  match parseInt s with
  | INaN => nan
  | Int z => of_Z z
  end.

(** A slider position [k / 100] as [parseFloat] reads its decimal numeral:
    the double nearest to the quotient. *)
Definition slider (k : Z) : float := of_Z k / 100.

(** The integer part of a finite double. *)
Definition trunc (x : float) : Z :=
  match FloatOps.Prim2SF x with
  | SpecFloat.S754_finite s m e =>
      let a := if (0 <=? e)%Z then (Z.pos m * 2 ^ e)%Z
               else (Z.pos m / 2 ^ (- e))%Z in
      if s then (- a)%Z else a
  | _ => 0%Z
  end.

(** [ToLength]: NaN and negative numbers give 0, the rest is truncated and
    capped at [2^53 - 1]. *)
Definition ToLength (len : float) : Z :=
  if is_nan len then 0%Z
  else if len =? infinity then (2 ^ 53 - 1)%Z
  else Z.min (Z.max 0 (trunc len)) (2 ^ 53 - 1).

(** [Array.from({ length: len }, (_, i) => mapfn i)]: the array is created
    first, which throws a RangeError for a length above [2^32 - 1]. *)
Definition Array_from {A : Type} (len : float) (mapfn : nat -> A)
  : outcome (list A) :=
  let len := ToLength len in
  if (len <=? 2 ^ 32 - 1)%Z then Returns (map mapfn (seq 0 (Z.to_nat len)))
  else RangeError.

(** [arr.indexOf(x)] with strict equality: NaN is equal to nothing. *)
Fixpoint index_from (l : list float) (x : float) (i : Z) : Z :=
  match l with
  | [] => (-1)%Z
  | y :: l' => if y =? x then i else index_from l' x (i + 1)%Z
  end.

Definition indexOf (l : list float) (x : float) : Z := index_from l x 0%Z.

Module Math.
Definition PI : float := 3.141592653589793.
Definition sqrt (x : float) : float := PrimFloat.sqrt x.
(** [Math.pow(b, 2)] *)
Definition pow_2 (b : float) : float := b * b.
Definition abs (x : float) : float := PrimFloat.abs x.
End Math.

Record ImpedanceData : Type := mkImpedanceData {
  frequencies : list float;
  impedanceData : list float
}.

(** The callback of [frequencies.map] with the constants before it. *)
Definition impedance (fluidLevel f : float) : float :=
  let R0 := 1000 in
  let C0 := 1e-9 in
  let fluidFactor := 1 - fluidLevel * 0.6 in
  let resistance := R0 * fluidFactor in
  let capacitance := C0 * (1 + fluidLevel * 3) in
  let omega := 2 * Math.PI * f * 1000 in
  let denom := 1 + Math.pow_2 (omega * resistance * capacitance) in
  let Z := resistance / Math.sqrt denom in
  Z.

(** [generateImpedanceData] of the two later versions. *)
Definition generateImpedanceData (fluidLevel minFreq maxFreq : float)
  : outcome ImpedanceData :=
  match Array_from (maxFreq - minFreq + 1)
                   (fun i => of_Z (Z.of_nat i) + minFreq) with
  | Returns frequencies =>
      let impedanceData := map (impedance fluidLevel) frequencies in
      Returns (mkImpedanceData frequencies impedanceData)
  | TypeError => TypeError
  | RangeError => RangeError
  end.

(** The decimal digits of [n] with a point before the last [f]. *)
Definition digits_with_point (n : Z) (f : nat) : string :=
  let m := NilZero.string_of_uint (N.to_uint (Z.to_N n)) in
  let m := (repeat_zero (f + 1 - String.length m) ++ m)%string in
  let k := String.length m in
  match f with
  | O => m
  | _ => (substring 0 (k - f) m ++ "." ++ substring (k - f) f m)%string
  end.

(** The integer nearest to [x * 10^f], the larger one on a tie, for a
    finite [x >= 0]: computed on the exact value [m * 2^e] of the double. *)
Definition nearest_scaled (x : float) (f : nat) : Z :=
  match FloatOps.Prim2SF x with
  | SpecFloat.S754_finite _ m e =>
      let num := (Z.pos m * 10 ^ Z.of_nat f)%Z in
      if (0 <=? e)%Z then (num * 2 ^ e)%Z
      else ((2 * num + 2 ^ (- e)) / (2 * 2 ^ (- e)))%Z
  | _ => 0%Z
  end.

Section NumberToString.

(** [Number::toString] of a double of [1e21] or more. *)
Variable ToString : float -> string.

(** [x.toFixed(f)] *)
Definition toFixed (x : float) (f : nat) : string :=
  if is_nan x then "NaN"%string
  else if x =? infinity then "Infinity"%string
  else if x =? neg_infinity then "-Infinity"%string
  else
    let s := if x <? 0 then "-"%string else ""%string in
    let x := PrimFloat.abs x in
    let m := if 1e21 <=? x then ToString x
             else digits_with_point (nearest_scaled x f) f in
    (s ++ m)%string.

(** The expression [selectedImpedance.toFixed(2)] of a render of the
    frequency-selection version, from the state cells. *)
Definition render_selectedImpedance
  (fluidLevel minFreq maxFreq selectedFreq : float) : outcome string :=
  match generateImpedanceData fluidLevel minFreq maxFreq with
  | Returns d =>
      let selectedIndex := indexOf (frequencies d) selectedFreq in
      if negb (selectedIndex =? -1)%Z
      then match nth_error (impedanceData d) (Z.to_nat selectedIndex) with
           | Some z => Returns (toFixed z 2)
           | None => TypeError
           end
      else TypeError
  | TypeError => TypeError
  | RangeError => RangeError
  end.

End NumberToString.

(** [!x] *)
Definition falsy (x : float) : bool := is_nan x || (x =? 0).

Section ManualLDex.

Variable parseFloat : string -> float.
(** [Math.log10] *)
Variable log10 : float -> float.
Variable ToString : float -> string.

(** [calculateManualLDex] of the original version. *)
Definition calculateManualLDex (st : Original.State) : Original.State :=
  let vA := parseFloat (Original.voltageAffected st) in
  let iA := parseFloat (Original.currentAffected st) in
  let vU := parseFloat (Original.voltageUnaffected st) in
  let iU := parseFloat (Original.currentUnaffected st) in
  if falsy vA || falsy iA || falsy vU || falsy iU then
    Original.setManualMessage
      "Please fill all voltage and current values." st
  else
    let zA := vA / iA in
    let zU := vU / iU in
    let lDexVal := log10 (zA / zU) * 10 in
    let st := Original.setManualLDex (toFixed ToString lDexVal 2) st in
    let message :=
      if Math.abs lDexVal <? 3 then
        "Normal fluid levels."%string
      else if Math.abs lDexVal <? 10 then
        "Mild to moderate fluid buildup."%string
      else
        "Significant fluid buildup. Please consult a specialist."%string in
    Original.setManualMessage message st.

End ManualLDex.

(** The conclusion of the dual-limb version from the two fluid levels. *)
Definition limb_conclusion (leftFluid rightFluid : float) : string :=
  let lDexLeft := (leftFluid * 100) / 10 in
  let lDexRight := (rightFluid * 100) / 10 in
  let lDexDiff := Math.abs (lDexLeft - lDexRight) in
  if lDexDiff <? 2 then "Normal"%string
  else if lDexDiff <? 4 then "Slight Asymmetry"%string
  else "Significant Asymmetry"%string.

(** Two neighbouring doubles: 0.4596034657377336 and the next one. *)
Definition fluid_0_4596 : float := 0x1.d6a24a79e3256p-2.
Definition fluid_0_4596_next : float := 0x1.d6a24a79e3257p-2.

(** [Math.log10] where ECMAScript fixes its result: NaN for NaN and for
    negative numbers, minus infinity at zero, zero at 1, infinity at
    infinity.  A stand-in for sample runs on such values only; elsewhere it
    answers NaN and is no model of the function. *)
Definition log10_fixed_values (x : float) : float :=
  if is_nan x then nan
  else if x <? 0 then nan
  else if x =? 0 then neg_infinity
  else if x =? 1 then 0
  else if x =? infinity then infinity
  else nan.

End Double.

(** * Properties *)

(** ** [parseInt] on what a number input can hold *)

Example parseInt_samples :
  parseInt "500" = Int 500 /\ parseInt "" = INaN /\
  parseInt " -12px" = Int (-12) /\ parseInt "0x1f" = Int 31 /\
  parseInt "5e2" = Int 5 /\ parseInt "1.5" = Int 1 /\ parseInt "abc" = INaN.
Proof. repeat split; reflexivity. Qed.

(** ** [toFixed] on sample values *)

Lemma fixed_digits_of (x : R) (f : nat) (n : Z) :
  IZR n <= x * 10 ^ f + / 2 < IZR n + 1 ->
  fixed_digits x f
  = (let m := NilZero.string_of_uint (N.to_uint (Z.to_N n)) in
     let m := repeat_zero (f + 1 - String.length m) ++ m in
     let k := String.length m in
     match f with
     | O => m
     | _ => substring 0 (k - f) m ++ "." ++ substring (k - f) f m
     end).
Proof.
  intros Hn. unfold fixed_digits. now rewrite (Zfloor_eq n _ Hn).
Qed.

Example toFixed_samples (ToString : R -> string) :
  toFixed ToString (Num 3.0103) 2 = "3.01" /\
  toFixed ToString (Num 1000) 2 = "1000.00" /\
  toFixed ToString (Num (-0.001)) 2 = "-0.00" /\
  toFixed ToString (Num 0.005) 2 = "0.01" /\
  toFixed ToString (Num 19.5) 0 = "20".
Proof.
  unfold toFixed.
  repeat split;
    (destruct (Rlt_dec _ 0) as [Hneg | Hneg]; try lra);
    (rewrite ?Rabs_pos_eq by lra);
    (rewrite ?Rabs_left by lra);
    (destruct (Rle_dec 1e21 _) as [Hbig | Hbig]; [exfalso; lra |]).
  - now rewrite (fixed_digits_of _ 2 301) by lra.
  - now rewrite (fixed_digits_of _ 2 100000) by lra.
  - now rewrite (fixed_digits_of _ 2 0) by lra.
  - now rewrite (fixed_digits_of _ 2 1) by lra.
  - now rewrite (fixed_digits_of _ 0 20) by lra.
Qed.

(** ** Arrays of frequencies *)

Section ArrayFacts.

Context {A : Type}.

Lemma Array_from_length (len : intnum) (mapfn : nat -> A) :
  List.length (Array_from len mapfn) = ToLength len.
Proof.
  unfold Array_from. now rewrite length_map, length_seq.
Qed.

Lemma Array_from_nth (len : intnum) (mapfn : nat -> A) (i : nat) :
  (i < ToLength len)%nat ->
  nth_error (Array_from len mapfn) i = Some (mapfn i).
Proof.
  intros Hi. unfold Array_from.
  rewrite nth_error_map, nth_error_seq.
  destruct (Nat.ltb_spec i (ToLength len)) as [_ | Hge]; [reflexivity | lia].
Qed.

End ArrayFacts.

Lemma ToLength_bounds (lo hi : Z) :
  ToLength (iadd (isub (Int hi) (Int lo)) (Int 1)) = Z.to_nat (hi - lo + 1).
Proof. reflexivity. Qed.

Lemma ToLength_NaN_l (maxFreq : intnum) :
  ToLength (iadd (isub maxFreq INaN) (Int 1)) = 0%nat.
Proof. now destruct maxFreq. Qed.

Lemma ToLength_NaN_r (minFreq : intnum) :
  ToLength (iadd (isub INaN minFreq) (Int 1)) = 0%nat.
Proof. now destruct minFreq. Qed.

(** [index_from] on a run of consecutive integers. *)
Lemma index_from_run (lo x : Z) (n s : nat) (k : Z) :
  index_from (map (fun i => int_value (iadd (Int (Z.of_nat i)) (Int lo)))
                  (seq s n)) x k
  = if ((lo + Z.of_nat s <=? x) && (x <? lo + Z.of_nat s + Z.of_nat n))%Z
    then (k + (x - lo - Z.of_nat s))%Z
    else (-1)%Z.
Proof.
  revert s k. induction n as [| n IH]; intros s k; simpl.
  - destruct (Z.leb_spec (lo + Z.of_nat s) x), (Z.ltb_spec x (lo + Z.of_nat s + 0));
      simpl; try reflexivity; lia.
  - destruct (Z.eqb_spec (Z.of_nat s + lo) x) as [Heq | Hne].
    + destruct (Z.leb_spec (lo + Z.of_nat s) x);
        destruct (Z.ltb_spec x (lo + Z.of_nat s + Z.pos (Pos.of_succ_nat n)));
        simpl; lia.
    + rewrite IH.
      destruct (Z.leb_spec (lo + Z.of_nat s) x);
        destruct (Z.ltb_spec x (lo + Z.of_nat s + Z.pos (Pos.of_succ_nat n)));
        destruct (Z.leb_spec (lo + Z.of_nat (S s)) x);
        destruct (Z.ltb_spec x (lo + Z.of_nat (S s) + Z.of_nat n));
        simpl; lia.
Qed.

(** ** The formula *)

Lemma resistance_range (x : R) :
  0 <= x <= 1 -> 400 <= resistance x <= 1000.
Proof. unfold resistance, R0, fluidFactor. lra. Qed.

Lemma capacitance_range (x : R) :
  0 <= x <= 1 -> 1e-9 <= capacitance x <= 4e-9.
Proof. unfold capacitance, C0. lra. Qed.

Lemma denominator_ge_1 (r c : R) (f : Z) : 1 <= denom r c f.
Proof.
  unfold denom, Math.pow.
  pose proof (pow2_ge_0 (omega f * r * c)). lra.
Qed.

Lemma sqrt_denominator_ge_1 (r c : R) (f : Z) :
  1 <= Math.sqrt (denom r c f).
Proof.
  unfold Math.sqrt. rewrite <- sqrt_1 at 1.
  apply sqrt_le_1_alt, denominator_ge_1.
Qed.

Lemma impedance_range (r c : R) (f : Z) :
  0 < r -> 0 < impedance r c f <= r.
Proof.
  intros Hr. unfold impedance.
  pose proof (sqrt_denominator_ge_1 r c f) as Hs.
  split.
  - apply Rdiv_lt_0_compat; lra.
  - apply Rmult_le_reg_r with (r := Math.sqrt (denom r c f)); [lra |].
    replace (r / Math.sqrt (denom r c f) * Math.sqrt (denom r c f)) with r
      by (field; lra).
    nra.
Qed.

Lemma impedance_is_spec (x : R) (f : Z) :
  impedance (resistance x) (capacitance x) f = spec_impedance x (IZR f).
Proof.
  unfold impedance, denom, omega, Math.sqrt, Math.pow, Math.PI, spec_impedance.
  replace (resistance x) with (spec_R x)
    by (unfold resistance, R0, fluidFactor, spec_R; lra).
  replace (capacitance x) with (spec_C x)
    by (unfold capacitance, C0, spec_C; lra).
  reflexivity.
Qed.

Lemma omega_nonneg (f : Z) : (0 <= f)%Z -> 0 <= omega f.
Proof.
  intros Hf. unfold omega, Math.PI.
  pose proof PI_RGT_0 as Hpi. apply IZR_le in Hf.
  assert (0 <= PI * IZR f) by (apply Rmult_le_pos; lra).
  lra.
Qed.

Lemma omega_mono (f1 f2 : Z) : (f1 <= f2)%Z -> omega f1 <= omega f2.
Proof.
  intros Hf. unfold omega, Math.PI.
  pose proof PI_RGT_0. apply IZR_le in Hf. nra.
Qed.

(** For a fixed circuit the impedance does not grow with the frequency. *)
Lemma impedance_antitone_frequency (r c : R) (f1 f2 : Z) :
  0 < r -> 0 <= c -> (0 <= f1 <= f2)%Z ->
  impedance r c f2 <= impedance r c f1.
Proof.
  intros Hr Hc [H0 H12].
  pose proof (omega_nonneg f1 H0) as Hw1.
  pose proof (omega_mono f1 f2 H12) as Hw.
  assert (Hd : denom r c f1 <= denom r c f2).
  { unfold denom, Math.pow.
    generalize dependent (omega f1). generalize dependent (omega f2).
    intros w2 w1 Hw1 Hw.
    assert (0 <= w1 * r) by (apply Rmult_le_pos; lra).
    assert (w1 * r <= w2 * r) by (apply Rmult_le_compat_r; lra).
    assert (0 <= w1 * r * c) by (apply Rmult_le_pos; lra).
    assert (w1 * r * c <= w2 * r * c) by (apply Rmult_le_compat_r; lra).
    nra. }
  pose proof (sqrt_denominator_ge_1 r c f1) as Hs1.
  assert (Hs : Math.sqrt (denom r c f1) <= Math.sqrt (denom r c f2))
    by (apply sqrt_le_1_alt, Hd).
  unfold impedance, Rdiv.
  apply Rmult_le_compat_l; [lra |].
  apply Rinv_le_contravar; lra.
Qed.

(** A smaller resistance with a larger capacitance gives a strictly smaller
    impedance: [1 / Z^2 = 1 / R^2 + (omega C)^2] grows in both. *)
Lemma impedance_decreasing_circuit (r1 c1 r2 c2 : R) (f : Z) :
  0 < r2 < r1 -> 0 <= c1 <= c2 ->
  impedance r2 c2 f < impedance r1 c1 f.
Proof.
  intros [Hr2 Hr] [Hc1 Hc].
  pose proof (sqrt_denominator_ge_1 r1 c1 f) as Hs1.
  pose proof (sqrt_denominator_ge_1 r2 c2 f) as Hs2.
  pose proof (denominator_ge_1 r1 c1 f) as Hd1.
  pose proof (denominator_ge_1 r2 c2 f) as Hd2.
  set (s1 := Math.sqrt (denom r1 c1 f)) in *.
  set (s2 := Math.sqrt (denom r2 c2 f)) in *.
  assert (Hq1 : s1 * s1 = denom r1 c1 f)
    by (apply sqrt_sqrt; lra).
  assert (Hq2 : s2 * s2 = denom r2 c2 f)
    by (apply sqrt_sqrt; lra).
  (* the comparison of the squares *)
  assert (Hsq : (r2 * s1) * (r2 * s1) < (r1 * s2) * (r1 * s2)).
  { replace ((r2 * s1) * (r2 * s1)) with (r2 * r2 * (s1 * s1)) by ring.
    replace ((r1 * s2) * (r1 * s2)) with (r1 * r1 * (s2 * s2)) by ring.
    rewrite Hq1, Hq2. unfold denom, Math.pow.
    set (w := omega f).
    assert (Hw : 0 <= w * w) by nra.
    assert (Hcc : c1 * c1 <= c2 * c2) by nra.
    assert (Hrr : r2 * r2 < r1 * r1) by nra.
    assert (Hp : 0 <= r1 * r1 * (r2 * r2) * (w * w)).
    { apply Rmult_le_pos; [nra | exact Hw]. }
    assert (Hm : r1 * r1 * (r2 * r2) * (w * w) * (c1 * c1)
                 <= r1 * r1 * (r2 * r2) * (w * w) * (c2 * c2))
      by (apply Rmult_le_compat_l; assumption).
    nra. }
  assert (Hlt : r2 * s1 < r1 * s2).
  { apply Rsqr_incrst_0; [exact Hsq | |]; apply Rmult_le_pos; lra. }
  unfold impedance. fold s1 s2.
  apply Rmult_lt_reg_r with (r := s1 * s2); [nra |].
  replace (r2 / s2 * (s1 * s2)) with (r2 * s1) by (field; lra).
  replace (r1 / s1 * (s1 * s2)) with (r1 * s2) by (field; lra).
  exact Hlt.
Qed.

(** The same with a margin: a resistance smaller by the factor [k] with a
    capacitance larger by the factor [k] gives an impedance smaller by the
    factor [k]. *)
Lemma impedance_margin (k r1 c1 r2 c2 : R) (f : Z) :
  1 <= k -> 0 < r2 -> k * r2 <= r1 -> 0 <= c1 -> k * c1 <= c2 ->
  k * impedance r2 c2 f <= impedance r1 c1 f.
Proof.
  intros Hk Hr2 Hr Hc1 Hc.
  pose proof (sqrt_denominator_ge_1 r1 c1 f) as Hs1.
  pose proof (sqrt_denominator_ge_1 r2 c2 f) as Hs2.
  pose proof (denominator_ge_1 r1 c1 f) as Hd1.
  pose proof (denominator_ge_1 r2 c2 f) as Hd2.
  set (s1 := Math.sqrt (denom r1 c1 f)) in *.
  set (s2 := Math.sqrt (denom r2 c2 f)) in *.
  assert (Hq1 : s1 * s1 = denom r1 c1 f) by (apply sqrt_sqrt; lra).
  assert (Hq2 : s2 * s2 = denom r2 c2 f) by (apply sqrt_sqrt; lra).
  assert (Hkr : 0 <= k * r2) by (apply Rmult_le_pos; lra).
  assert (Hkc : 0 <= k * c1) by (apply Rmult_le_pos; lra).
  assert (Hsq : (k * r2 * s1) * (k * r2 * s1) <= (r1 * s2) * (r1 * s2)).
  { replace ((k * r2 * s1) * (k * r2 * s1))
      with ((k * r2) * (k * r2) * (s1 * s1)) by ring.
    replace ((r1 * s2) * (r1 * s2)) with (r1 * r1 * (s2 * s2)) by ring.
    rewrite Hq1, Hq2. unfold denom, Math.pow.
    set (w := omega f).
    assert (Hw : 0 <= w * w) by nra.
    assert (Hrr : (k * r2) * (k * r2) <= r1 * r1) by nra.
    assert (Hcc : (k * c1) * (k * c1) <= c2 * c2) by nra.
    assert (Hp : 0 <= r1 * r1 * (r2 * r2) * (w * w)).
    { apply Rmult_le_pos; [nra | exact Hw]. }
    assert (Hm : r1 * r1 * (r2 * r2) * (w * w) * ((k * c1) * (k * c1))
                 <= r1 * r1 * (r2 * r2) * (w * w) * (c2 * c2))
      by (apply Rmult_le_compat_l; assumption).
    nra. }
  assert (Hle : k * r2 * s1 <= r1 * s2).
  { apply Rsqr_incr_0; [exact Hsq | |]; repeat apply Rmult_le_pos; lra. }
  unfold impedance. fold s1 s2.
  apply Rmult_le_reg_r with (r := s1 * s2); [nra |].
  replace (k * (r2 / s2) * (s1 * s2)) with (k * r2 * s1) by (field; lra).
  replace (r1 / s1 * (s1 * s2)) with (r1 * s2) by (field; lra).
  exact Hle.
Qed.

(** ** The generated series *)

Lemma DualLimb_generator_same :
  DualLimb.generateImpedanceData = FrequencySelection.generateImpedanceData.
Proof. reflexivity. Qed.

Lemma impedanceData_map (x : R) (minFreq maxFreq : intnum) :
  let d := FrequencySelection.generateImpedanceData x minFreq maxFreq in
  impedanceData d
  = map (impedance (resistance x) (capacitance x)) (frequencies d).
Proof. reflexivity. Qed.

Lemma frequencies_Array_from (x : R) (minFreq maxFreq : intnum) :
  frequencies (FrequencySelection.generateImpedanceData x minFreq maxFreq)
  = Array_from (iadd (isub maxFreq minFreq) (Int 1))
               (fun i => int_value (iadd (Int (Z.of_nat i)) minFreq)).
Proof. reflexivity. Qed.

Lemma frequencies_length (x : R) (minFreq maxFreq : intnum) :
  List.length
    (frequencies (FrequencySelection.generateImpedanceData x minFreq maxFreq))
  = ToLength (iadd (isub maxFreq minFreq) (Int 1)).
Proof.
  rewrite frequencies_Array_from. apply Array_from_length.
Qed.

Lemma impedanceData_length (x : R) (minFreq maxFreq : intnum) :
  List.length
    (impedanceData (FrequencySelection.generateImpedanceData x minFreq maxFreq))
  = ToLength (iadd (isub maxFreq minFreq) (Int 1)).
Proof.
  rewrite impedanceData_map, length_map. apply frequencies_length.
Qed.

Lemma frequencies_nth (x : R) (lo hi : Z) (i : nat) :
  (i < Z.to_nat (hi - lo + 1))%nat ->
  nth_error
    (frequencies (FrequencySelection.generateImpedanceData x (Int lo) (Int hi)))
    i
  = Some (lo + Z.of_nat i)%Z.
Proof.
  intros Hi. rewrite frequencies_Array_from.
  rewrite Array_from_nth by exact Hi.
  simpl. f_equal. lia.
Qed.

Lemma impedanceData_nth (x : R) (lo hi : Z) (i : nat) :
  (i < Z.to_nat (hi - lo + 1))%nat ->
  nth_error
    (impedanceData
       (FrequencySelection.generateImpedanceData x (Int lo) (Int hi))) i
  = Some (impedance (resistance x) (capacitance x) (lo + Z.of_nat i)).
Proof.
  intros Hi. rewrite impedanceData_map, nth_error_map.
  now rewrite frequencies_nth.
Qed.

Lemma frequencies_NaN (x : R) (minFreq maxFreq : intnum) :
  minFreq = INaN \/ maxFreq = INaN ->
  frequencies (FrequencySelection.generateImpedanceData x minFreq maxFreq) = [].
Proof.
  intros H. apply length_zero_iff_nil. rewrite frequencies_length.
  destruct H as [-> | ->]; [apply ToLength_NaN_l | apply ToLength_NaN_r].
Qed.

Lemma indexOf_frequencies (x : R) (lo hi f : Z) :
  indexOf
    (frequencies (FrequencySelection.generateImpedanceData x (Int lo) (Int hi)))
    (Int f)
  = if ((lo <=? f) && (f <=? hi))%Z then (f - lo)%Z else (-1)%Z.
Proof.
  rewrite frequencies_Array_from.
  unfold indexOf, Array_from. rewrite index_from_run, ToLength_bounds.
  destruct (Z.leb_spec lo f), (Z.leb_spec f hi),
    (Z.leb_spec (lo + Z.of_nat 0) f),
    (Z.ltb_spec f (lo + Z.of_nat 0 + Z.of_nat (Z.to_nat (hi - lo + 1))));
    simpl; lia.
Qed.

(** Inside the bounds the lookup finds the impedance of the frequency. *)
Lemma impedance_at_inside (x : R) (lo hi f : Z) :
  (lo <= f <= hi)%Z ->
  impedance_at (FrequencySelection.generateImpedanceData x (Int lo) (Int hi)) f
  = VNumber (impedance (resistance x) (capacitance x) f).
Proof.
  intros [Hlo Hhi]. unfold impedance_at. rewrite indexOf_frequencies.
  replace ((lo <=? f) && (f <=? hi))%Z with true
    by (symmetry; apply andb_true_intro; split; apply Z.leb_le; lia).
  unfold array_get.
  destruct (Z.ltb_spec (f - lo) 0); [lia |].
  rewrite impedanceData_nth by lia.
  do 2 f_equal. lia.
Qed.

Lemma ranged_series_meets_spec (x : R) (lo hi : Z) :
  (lo <= hi)%Z ->
  series_meets_spec x lo hi
    (FrequencySelection.generateImpedanceData x (Int lo) (Int hi)).
Proof.
  intros Hle. unfold series_meets_spec.
  rewrite impedanceData_length, frequencies_length, ToLength_bounds.
  repeat split.
  - lia.
  - now apply frequencies_nth.
  - rewrite impedanceData_nth by assumption.
    now rewrite impedance_is_spec.
Qed.

Lemma original_is_ranged_1_100 (x : R) :
  Original.generateImpedanceData x
  = FrequencySelection.generateImpedanceData x (Int 1) (Int 100).
Proof.
  assert (Hf : Array_from (Int 100) (fun i => (Z.of_nat i + 1)%Z)
               = Array_from (iadd (isub (Int 100) (Int 1)) (Int 1))
                   (fun i => int_value (iadd (Int (Z.of_nat i)) (Int 1)))).
  { unfold Array_from. apply map_ext. intros i. reflexivity. }
  unfold Original.generateImpedanceData, FrequencySelection.generateImpedanceData.
  cbv zeta. now rewrite Hf.
Qed.

(** ** The claims on the formula *)

(** C1.  For a fluid level [x] in [0,1] and integer bounds
    [minFreq <= maxFreq] that are exact as doubles and span fewer than
    [2^32] frequencies, the generator of the two later versions returns the
    consecutive integers [minFreq .. maxFreq] as frequencies and, at every
    index, the impedance [R / sqrt (1 + (2 pi f 1000 R C)^2)] of the
    frequency at that index, with [R = 1000 (1 - 0.6 x)] and
    [C = 1e-9 (1 + 3 x)], in exact arithmetic; the original version does so
    for 1 .. 100. *)
Theorem generateImpedanceData_meets_spec (x : R) (minFreq maxFreq : Z) :
  0 <= x <= 1 -> (minFreq <= maxFreq)%Z ->
  bounds_within_limits minFreq maxFreq ->
  series_meets_spec x minFreq maxFreq
    (FrequencySelection.generateImpedanceData x (Int minFreq) (Int maxFreq)) /\
  series_meets_spec x minFreq maxFreq
    (DualLimb.generateImpedanceData x (Int minFreq) (Int maxFreq)) /\
  series_meets_spec x 1 100 (Original.generateImpedanceData x).
Proof.
  intros _ Hle _. rewrite DualLimb_generator_same, original_is_ranged_1_100.
  repeat split; apply ranged_series_meets_spec; lia.
Qed.

Lemma generateImpedanceData_meets_spec_witness :
  0 <= 0.2 <= 1 /\ (20 <= 25)%Z /\ bounds_within_limits 20 25 /\
  series_meets_spec 0.2 20 25
    (FrequencySelection.generateImpedanceData 0.2 (Int 20) (Int 25)).
Proof.
  assert (Hlim : bounds_within_limits 20 25)
    by (unfold bounds_within_limits, safe_integer; lia).
  split; [lra | split; [lia | split; [exact Hlim |]]].
  apply (generateImpedanceData_meets_spec 0.2 20 25); [lra | lia | exact Hlim].
Defined.

(** On doubles: with the bounds 1 and 4294967296 the generator throws a
    RangeError instead of returning arrays, and with the bounds [2^53] and
    [2^53 + 2] the frequencies it returns are not consecutive integers. *)
Lemma generateImpedanceData_beyond_limits :
  Double.generateImpedanceData (Double.slider 20)
    (Double.of_Z 1) (Double.of_Z 4294967296)
  = RangeError /\
  exists d : Double.ImpedanceData,
    Double.generateImpedanceData (Double.slider 20)
      (Double.of_Z (2 ^ 53)) (Double.of_Z (2 ^ 53 + 2))
    = Returns d /\
    Double.frequencies d
    = [Double.of_Z (2 ^ 53); Double.of_Z (2 ^ 53); Double.of_Z (2 ^ 53 + 2)].
Proof.
  split; [vm_compute; reflexivity |].
  eexists. split; vm_compute; reflexivity.
Qed.

(** C2.  For a fixed fluid level in [0,1] and frequencies
    [1 <= f1 <= f2] within the bounds, the impedance that the generated
    series holds for [f2] is at most the one it holds for [f1]. *)
Theorem impedance_nonincreasing_in_frequency
  (x : R) (minFreq maxFreq f1 f2 : Z) :
  0 <= x <= 1 -> (1 <= f1)%Z -> (f1 <= f2)%Z ->
  (minFreq <= f1)%Z -> (f2 <= maxFreq)%Z ->
  let d := FrequencySelection.generateImpedanceData x (Int minFreq) (Int maxFreq) in
  exists z1 z2 : R,
    impedance_at d f1 = VNumber z1 /\
    impedance_at d f2 = VNumber z2 /\
    z2 <= z1.
Proof.
  intros Hx H1 H12 Hlo Hhi d.
  exists (impedance (resistance x) (capacitance x) f1),
         (impedance (resistance x) (capacitance x) f2).
  pose proof (resistance_range x Hx). pose proof (capacitance_range x Hx).
  repeat split.
  - apply impedance_at_inside. lia.
  - apply impedance_at_inside. lia.
  - apply impedance_antitone_frequency; [lra | lra | lia].
Qed.

Lemma impedance_nonincreasing_in_frequency_witness :
  exists z1 z2 : R,
    impedance_at
      (FrequencySelection.generateImpedanceData 0.2 (Int 1) (Int 100)) 10
    = VNumber z1 /\
    impedance_at
      (FrequencySelection.generateImpedanceData 0.2 (Int 1) (Int 100)) 50
    = VNumber z2 /\
    z2 <= z1.
Proof.
  apply (impedance_nonincreasing_in_frequency 0.2 1 100 10 50); [lra | lia ..].
Defined.

(** C3.  For a frequency [f >= 1] within bounds that are exact as doubles
    and span fewer than [2^32] frequencies, and for fluid levels in [0,1]
    that are at least 0.009 apart (as any two slider positions are, also
    after their rounding to doubles), the resistance is smaller and the
    capacitance larger at the higher level, and the impedance held for [f]
    is lower there by more than 0.5 percent, hence strictly lower, in exact
    arithmetic. *)
Theorem impedance_decreasing_in_fluid_level
  (x1 x2 : R) (minFreq maxFreq f : Z) :
  0 <= x1 -> x1 + 0.009 <= x2 -> x2 <= 1 ->
  (1 <= f)%Z -> (minFreq <= f <= maxFreq)%Z ->
  bounds_within_limits minFreq maxFreq ->
  resistance x2 < resistance x1 /\
  capacitance x1 < capacitance x2 /\
  exists z1 z2 : R,
    impedance_at
      (FrequencySelection.generateImpedanceData x1 (Int minFreq) (Int maxFreq)) f
    = VNumber z1 /\
    impedance_at
      (FrequencySelection.generateImpedanceData x2 (Int minFreq) (Int maxFreq)) f
    = VNumber z2 /\
    1.005 * z2 <= z1 /\
    z2 < z1.
Proof.
  intros H0 H12 H1 _ Hf _.
  assert (Hr : resistance x2 < resistance x1)
    by (unfold resistance, R0, fluidFactor; lra).
  assert (Hc : capacitance x1 < capacitance x2)
    by (unfold capacitance, C0; lra).
  assert (Hx2 : 0 <= x2 <= 1) by lra.
  assert (Hx1 : 0 <= x1 <= 1) by lra.
  pose proof (resistance_range x2 Hx2) as Hr2.
  pose proof (capacitance_range x1 Hx1) as Hc1.
  split; [exact Hr | split; [exact Hc |]].
  exists (impedance (resistance x1) (capacitance x1) f),
         (impedance (resistance x2) (capacitance x2) f).
  split; [apply impedance_at_inside; lia |].
  split; [apply impedance_at_inside; lia |].
  assert (Hmargin : 1.005 * impedance (resistance x2) (capacitance x2) f
                    <= impedance (resistance x1) (capacitance x1) f).
  { apply impedance_margin; try lra.
    - unfold resistance, R0, fluidFactor. lra.
    - unfold capacitance, C0. lra. }
  split; [exact Hmargin |].
  pose proof (impedance_range (resistance x2) (capacitance x2) f) as Hpos.
  lra.
Qed.

Lemma impedance_decreasing_in_fluid_level_witness :
  resistance 0.5 < resistance 0.2 /\
  capacitance 0.2 < capacitance 0.5 /\
  exists z1 z2 : R,
    impedance_at
      (FrequencySelection.generateImpedanceData 0.2 (Int 1) (Int 100)) 50
    = VNumber z1 /\
    impedance_at
      (FrequencySelection.generateImpedanceData 0.5 (Int 1) (Int 100)) 50
    = VNumber z2 /\
    1.005 * z2 <= z1 /\
    z2 < z1.
Proof.
  apply (impedance_decreasing_in_fluid_level 0.2 0.5 1 100 50);
    try lra; try lia.
  unfold bounds_within_limits, safe_integer. lia.
Defined.

(** On doubles: at a frequency of [10^157], typed as both bounds, the
    square overflows and the impedance is 0 at the fluid levels 0.2 and 0.5
    alike; and at 100 kHz the impedance at the double that follows
    0.4596034657377336 is larger than at that number. *)
Lemma impedance_not_decreasing_on_doubles :
  PrimFloat.ltb
    (Double.impedance (Double.slider 50) (Double.of_Z (10 ^ 157)))
    (Double.impedance (Double.slider 20) (Double.of_Z (10 ^ 157)))
  = false /\
  PrimFloat.ltb Double.fluid_0_4596 Double.fluid_0_4596_next = true /\
  PrimFloat.ltb
    (Double.impedance Double.fluid_0_4596 (Double.of_Z 100))
    (Double.impedance Double.fluid_0_4596_next (Double.of_Z 100))
  = true.
Proof.
  split; [vm_compute; reflexivity |].
  split; vm_compute; reflexivity.
Qed.

(** C8.  At fluid level 0 the fluid factor [1 - 0.6 * 0] and the
    capacitance factor [1 + 3 * 0] are 1, so the resistance computed by
    [generateImpedanceData] is [R0 = 1000] and the capacitance is
    [C0 = 1e-9]; the series is the one of that circuit. *)
Theorem zero_fluid_gives_R0_C0 :
  fluidFactor 0 = 1 /\ 1 + 0 * 3 = 1 /\
  resistance 0 = R0 /\ R0 = 1000 /\
  capacitance 0 = C0 /\ C0 = 1e-9 /\
  impedanceData (Original.generateImpedanceData 0)
  = map (impedance 1000 1e-9) (frequencies (Original.generateImpedanceData 0)).
Proof.
  assert (Hr : resistance 0 = 1000) by (unfold resistance, R0, fluidFactor; lra).
  assert (Hc : capacitance 0 = 1e-9) by (unfold capacitance, C0; lra).
  split; [unfold fluidFactor; lra |].
  split; [lra |].
  split; [unfold R0; exact Hr |].
  split; [reflexivity |].
  split; [unfold C0; exact Hc |].
  split; [reflexivity |].
  rewrite original_is_ranged_1_100, impedanceData_map. cbv zeta.
  now rewrite Hr, Hc.
Qed.

(** C9.  For a fluid level [x] in [0,1] the denominator
    [1 + (omega R C)^2] is at least 1 at every frequency, so is its square
    root; and for bounds that are exact as doubles and span fewer than
    [2^32] frequencies every impedance of the generated series lies in
    [(0, R]] with [R = 1000 (1 - 0.6 x) <= 1000]. *)
Theorem impedance_within_resistance (x : R) (minFreq maxFreq : Z) :
  0 <= x <= 1 ->
  bounds_within_limits minFreq maxFreq ->
  (forall f : Z,
      1 <= denom (resistance x) (capacitance x) f /\
      1 <= Math.sqrt (denom (resistance x) (capacitance x) f)) /\
  resistance x = 1000 * (1 - 0.6 * x) /\
  resistance x <= 1000 /\
  (forall z : R,
      In z (impedanceData
              (FrequencySelection.generateImpedanceData x
                 (Int minFreq) (Int maxFreq))) \/
      In z (impedanceData
              (DualLimb.generateImpedanceData x (Int minFreq) (Int maxFreq))) \/
      In z (impedanceData (Original.generateImpedanceData x)) ->
      0 < z <= resistance x).
Proof.
  intros Hx _. pose proof (resistance_range x Hx) as Hr.
  split; [| split; [| split]].
  - intros f. split;
      [apply denominator_ge_1 | apply sqrt_denominator_ge_1].
  - unfold resistance, R0, fluidFactor. lra.
  - lra.
  - intros z. rewrite DualLimb_generator_same, original_is_ranged_1_100.
    rewrite !impedanceData_map. cbv zeta.
    intros [Hin | [Hin | Hin]];
      apply in_map_iff in Hin; destruct Hin as [f [<- _]];
      apply impedance_range; lra.
Qed.

Lemma impedance_within_resistance_witness :
  0 <= 0.2 <= 1 /\
  1 <= denom (resistance 0.2) (capacitance 0.2) 50 /\
  resistance 0.2 <= 1000.
Proof.
  split; [lra |].
  destruct (impedance_within_resistance 0.2 1 100)
    as (Hdenom & _ & Hr & _);
    [lra | unfold bounds_within_limits, safe_integer; lia |].
  split; [apply Hdenom | exact Hr].
Defined.

(** On doubles: with [10^157] typed as both bounds the series holds that one
    frequency, its square overflows and the impedance computed for it is 0,
    not a positive number. *)
Lemma impedance_zero_at_overflow :
  exists d : Double.ImpedanceData,
    Double.generateImpedanceData (Double.slider 20)
      (Double.of_Z (10 ^ 157)) (Double.of_Z (10 ^ 157))
    = Returns d /\
    Double.frequencies d = [Double.of_Z (10 ^ 157)] /\
    Double.impedanceData d = [Double.of_Z 0] /\
    PrimFloat.ltb (Double.of_Z 0)
      (Double.impedance (Double.slider 20) (Double.of_Z (10 ^ 157)))
    = false.
Proof.
  eexists.
  split; [vm_compute; reflexivity |].
  split; [vm_compute; reflexivity |].
  split; vm_compute; reflexivity.
Qed.

(** ** The number of points *)

Lemma original_has_100_points (x : R) :
  List.length (frequencies (Original.generateImpedanceData x)) = 100%nat /\
  List.length (impedanceData (Original.generateImpedanceData x)) = 100%nat.
Proof.
  rewrite original_is_ranged_1_100, impedanceData_length, frequencies_length.
  split; reflexivity.
Qed.

Lemma ranged_points_within_1_100 (x : R) (lo hi : Z) :
  (1 <= lo)%Z -> (hi <= 100)%Z ->
  (List.length
     (frequencies (FrequencySelection.generateImpedanceData x (Int lo) (Int hi)))
   <= 100)%nat.
Proof.
  intros Hlo Hhi. rewrite frequencies_length, ToLength_bounds. lia.
Qed.

(** C4.  Typing 500 into the maximum-frequency input of the initial screen
    makes the next render evaluate the formula over 500 points, in the
    frequency-selection version and in the dual-limb version alike. *)
Theorem typed_maximum_gives_500_points :
  let st := FrequencySelection.onChangeMaxFreq "500"
              FrequencySelection.initial_state in
  let st2 := DualLimb.onChangeMaxFreq "500" DualLimb.initial_state in
  FrequencySelection.maxFreq st = Int 500 /\
  List.length (frequencies (FrequencySelection.data st)) = 500%nat /\
  List.length (impedanceData (FrequencySelection.data st)) = 500%nat /\
  List.length (frequencies (DualLimb.left st2)) = 500%nat /\
  List.length (impedanceData (DualLimb.right st2)) = 500%nat.
Proof.
  cbv zeta. unfold FrequencySelection.data, DualLimb.left, DualLimb.right.
  rewrite DualLimb_generator_same.
  rewrite !impedanceData_length, !frequencies_length.
  repeat split; reflexivity.
Qed.

(** ** The selected frequency *)

Lemma indexOf_nil (x : intnum) : indexOf [] x = (-1)%Z.
Proof. now destruct x. Qed.

(** C6.  On a screen whose bounds are exact as doubles and span fewer than
    [2^32] frequencies: when [minFreq <= selectedFreq <= maxFreq] the lookup
    succeeds and [selectedImpedance] is the impedance at the selected
    frequency, which [toFixed] renders; in every other such state
    [selectedImpedance] is the string ["N/A"], on which the call of
    [toFixed] throws. *)
Theorem selectedImpedance_inside_or_NA
  (ToString : R -> string) (st : FrequencySelection.State) :
  state_within_limits st ->
  (selected_in_range st = true ->
   exists f : Z,
     FrequencySelection.selectedFreq st = Int f /\
     FrequencySelection.selectedIndex st <> (-1)%Z /\
     FrequencySelection.selectedImpedance st
     = VNumber (impedance (resistance (FrequencySelection.fluidLevel st))
                          (capacitance (FrequencySelection.fluidLevel st)) f) /\
     FrequencySelection.render_selectedImpedance ToString st
     = Returns
         (toFixed ToString
            (Num (impedance (resistance (FrequencySelection.fluidLevel st))
                            (capacitance (FrequencySelection.fluidLevel st)) f))
            2)) /\
  (selected_in_range st = false ->
   FrequencySelection.selectedImpedance st = VString "N/A" /\
   FrequencySelection.render_selectedImpedance ToString st = TypeError).
Proof.
  intros _.
  destruct st as [x minFreq maxFreq selectedFreq].
  unfold selected_in_range, FrequencySelection.render_selectedImpedance,
    FrequencySelection.selectedImpedance, FrequencySelection.selectedIndex,
    FrequencySelection.data.
  cbn [FrequencySelection.minFreq FrequencySelection.maxFreq
       FrequencySelection.selectedFreq FrequencySelection.fluidLevel].
  destruct minFreq as [| lo], maxFreq as [| hi], selectedFreq as [| f];
    try (rewrite frequencies_NaN by (left + right; reflexivity));
    try rewrite indexOf_nil;
    unfold ile;
    try (split; [discriminate | intros _; split; reflexivity]);
    try (split; [rewrite ?andb_false_r; discriminate
                | intros _; split; reflexivity]).
  pose proof (impedance_at_inside x lo hi f) as Hin.
  unfold impedance_at in Hin.
  rewrite indexOf_frequencies in *.
  destruct (Z.leb_spec lo f) as [Hlo | Hlo], (Z.leb_spec f hi) as [Hhi | Hhi];
    cbn [andb] in *;
    try (split; [discriminate | intros _; split; reflexivity]).
  split; [intros _ | discriminate].
  exists f.
  assert (Hne : (f - lo)%Z <> (-1)%Z) by lia.
  destruct (Z.eqb_spec (f - lo) (-1)) as [Heq | _]; [contradiction |].
  cbn [negb]. rewrite (Hin (conj Hlo Hhi)).
  repeat split. exact Hne.
Qed.

(** The initial screen, and the screen after 60 is typed as the minimum
    while 50 stays selected. *)
Lemma selectedImpedance_inside_or_NA_witness :
  FrequencySelection.selectedImpedance FrequencySelection.initial_state
  = VNumber (impedance (resistance 0.2) (capacitance 0.2) 50) /\
  FrequencySelection.selectedImpedance
    (FrequencySelection.onChangeMinFreq "60" FrequencySelection.initial_state)
  = VString "N/A" /\
  FrequencySelection.render_selectedImpedance (fun _ => "")
    (FrequencySelection.onChangeMinFreq "60" FrequencySelection.initial_state)
  = TypeError.
Proof.
  assert (Hlim : forall lo : Z, (1 <= lo <= 100)%Z -> bounds_within_limits lo 100)
    by (intros lo Hlo; unfold bounds_within_limits, safe_integer; lia).
  split.
  - destruct (selectedImpedance_inside_or_NA (fun _ => "")
                FrequencySelection.initial_state) as [Hin _];
      [apply (Hlim 1%Z); lia |].
    destruct (Hin eq_refl) as (f & Hf & _ & Hz & _).
    injection Hf as <-. exact Hz.
  - destruct (selectedImpedance_inside_or_NA (fun _ => "")
                (FrequencySelection.onChangeMinFreq "60"
                   FrequencySelection.initial_state)) as [_ Hout];
      [apply (Hlim 60%Z); lia |].
    exact (Hout eq_refl).
Defined.

(** On doubles: after 4294967296 is typed as the maximum of the initial
    screen, the selected frequency 50 lies within the bounds, and the render
    throws a RangeError before any impedance is selected. *)
Lemma selectedImpedance_RangeError_in_range :
  selected_in_range
    (FrequencySelection.onChangeMaxFreq "4294967296"
       FrequencySelection.initial_state)
  = true /\
  Double.render_selectedImpedance (fun _ => "") (Double.slider 20)
    (Double.of_Z 1) (Double.parseInt "4294967296") (Double.of_Z 50)
  = RangeError.
Proof. split; [reflexivity | vm_compute; reflexivity]. Qed.

(** ** The slider index *)

(** C7.  The L-Dex index derived from a slider is the fluid percentage
    divided by 10, that is ten times the fluid level, in the single-limb
    version and for each limb of the dual-limb version. *)
Theorem lDex_is_fluid_percentage_over_10 :
  (forall st : FrequencySelection.State,
      FrequencySelection.fluidPercentage st
      = FrequencySelection.fluidLevel st * 100 /\
      FrequencySelection.lDexIndex st
      = FrequencySelection.fluidPercentage st / 10 /\
      FrequencySelection.lDexIndex st = 10 * FrequencySelection.fluidLevel st) /\
  (forall st : DualLimb.State,
      DualLimb.lDexLeft st = (DualLimb.leftFluid st * 100) / 10 /\
      DualLimb.lDexLeft st = 10 * DualLimb.leftFluid st /\
      DualLimb.lDexRight st = (DualLimb.rightFluid st * 100) / 10 /\
      DualLimb.lDexRight st = 10 * DualLimb.rightFluid st).
Proof.
  split; intros st.
  - unfold FrequencySelection.lDexIndex, FrequencySelection.fluidPercentage.
    repeat split; lra.
  - unfold DualLimb.lDexLeft, DualLimb.lDexRight.
    repeat split; lra.
Qed.

(** ** The CSV export *)

Section ForEachPush.

Context {A B : Type}.
Variable row : A -> nat -> B.

Lemma forEach_push (arr : list A) (k : nat) (rows : list B) :
  forEach_from (fun rows x i => push rows (row x i)) arr k rows
  = (rows ++ map (fun p => row (snd p) (fst p))
                 (combine (seq k (List.length arr)) arr))%list.
Proof.
  revert k rows. induction arr as [| x arr IH]; intros k rows; simpl.
  - now rewrite app_nil_r.
  - rewrite IH. unfold push. now rewrite <- app_assoc.
Qed.

Lemma indexed_rows_length (arr : list A) (k : nat) :
  List.length (map (fun p => row (snd p) (fst p))
                   (combine (seq k (List.length arr)) arr))
  = List.length arr.
Proof.
  rewrite length_map, length_combine, length_seq. lia.
Qed.

Lemma indexed_rows_nth (arr : list A) (k i : nat) (x : A) :
  nth_error arr i = Some x ->
  nth_error (map (fun p => row (snd p) (fst p))
                 (combine (seq k (List.length arr)) arr)) i
  = Some (row x (k + i)%nat).
Proof.
  revert k i. induction arr as [| y arr IH]; intros k i Hx.
  - destruct i; discriminate.
  - destruct i as [| i]; simpl in *.
    + injection Hx as ->. now rewrite Nat.add_0_r.
    + rewrite (IH (S k) i Hx). do 2 f_equal. lia.
Qed.

End ForEachPush.

(** C10.  [exportToCSV] writes the header row and then one row per
    frequency, as many as the generator made ([maxFreq - minFreq + 1] for
    ordered bounds); row [i] holds the frequency at index [i] with the left
    and the right impedance of that same frequency, both read inside their
    arrays, which have the same length. *)
Theorem exportToCSV_rows (ToString : R -> string) (st : DualLimb.State) :
  exists dataRows : list string,
    DualLimb.csvRows ToString st
    = "Frequency,Left Impedance,Right Impedance" :: dataRows /\
    DualLimb.text (DualLimb.exportToCSV ToString st)
    = String.concat (String "010" "")
        ("Frequency,Left Impedance,Right Impedance" :: dataRows) /\
    List.length dataRows
    = ToLength (iadd (isub (DualLimb.maxFreq st) (DualLimb.minFreq st)) (Int 1)) /\
    (forall lo hi : Z,
        DualLimb.minFreq st = Int lo -> DualLimb.maxFreq st = Int hi ->
        (lo <= hi)%Z ->
        Z.of_nat (List.length dataRows) = (hi - lo + 1)%Z) /\
    List.length (impedanceData (DualLimb.right st))
    = List.length (impedanceData (DualLimb.left st)) /\
    forall i : nat, (i < List.length dataRows)%nat ->
      exists f : Z,
        nth_error (frequencies (DualLimb.left st)) i = Some f /\
        array_get (impedanceData (DualLimb.left st)) (Z.of_nat i)
        = VNumber (impedance (resistance (DualLimb.leftFluid st))
                             (capacitance (DualLimb.leftFluid st)) f) /\
        array_get (impedanceData (DualLimb.right st)) (Z.of_nat i)
        = VNumber (impedance (resistance (DualLimb.rightFluid st))
                             (capacitance (DualLimb.rightFluid st)) f) /\
        nth_error dataRows i
        = Some (ToString (IZR f) ++ "," ++
                ToString (impedance (resistance (DualLimb.leftFluid st))
                                    (capacitance (DualLimb.leftFluid st)) f)
                ++ "," ++
                ToString (impedance (resistance (DualLimb.rightFluid st))
                                    (capacitance (DualLimb.rightFluid st)) f)).
Proof.
  destruct st as [dark xl xr minFreq maxFreq].
  unfold DualLimb.exportToCSV, DualLimb.csvRows, forEach.
  cbv zeta. rewrite forEach_push.
  unfold DualLimb.left, DualLimb.right.
  cbn [DualLimb.leftFluid DualLimb.rightFluid DualLimb.minFreq DualLimb.maxFreq
       DualLimb.text].
  rewrite DualLimb_generator_same.
  set (left := FrequencySelection.generateImpedanceData xl minFreq maxFreq).
  set (right := FrequencySelection.generateImpedanceData xr minFreq maxFreq).
  set (row := fun (f : Z) (i : nat) =>
                ToString (IZR f) ++ "," ++
                template ToString (array_get (impedanceData left) (Z.of_nat i))
                ++ "," ++
                template ToString (array_get (impedanceData right) (Z.of_nat i))).
  exists (map (fun p => row (snd p) (fst p))
              (combine (seq 0 (List.length (frequencies left)))
                       (frequencies left))).
  assert (Hlen : List.length (frequencies left)
                 = ToLength (iadd (isub maxFreq minFreq) (Int 1)))
    by apply frequencies_length.
  rewrite indexed_rows_length.
  split; [reflexivity |]. split; [reflexivity |]. split; [exact Hlen |].
  split.
  { intros lo hi -> -> Hle. rewrite Hlen, ToLength_bounds. lia. }
  split.
  { unfold left, right. now rewrite !impedanceData_length. }
  intros i Hi.
  (* the bounds are numbers, since the series is not empty *)
  destruct minFreq as [| lo];
    [rewrite Hlen, ToLength_NaN_l in Hi; lia |].
  destruct maxFreq as [| hi];
    [rewrite Hlen in Hi; simpl in Hi; lia |].
  rewrite Hlen, ToLength_bounds in Hi.
  exists (lo + Z.of_nat i)%Z.
  assert (Hf : nth_error (frequencies left) i = Some (lo + Z.of_nat i)%Z)
    by (apply frequencies_nth; exact Hi).
  assert (Hl : array_get (impedanceData left) (Z.of_nat i)
               = VNumber (impedance (resistance xl) (capacitance xl)
                                    (lo + Z.of_nat i))).
  { unfold array_get. destruct (Z.ltb_spec (Z.of_nat i) 0); [lia |].
    rewrite Nat2Z.id. unfold left. now rewrite impedanceData_nth. }
  assert (Hr : array_get (impedanceData right) (Z.of_nat i)
               = VNumber (impedance (resistance xr) (capacitance xr)
                                    (lo + Z.of_nat i))).
  { unfold array_get. destruct (Z.ltb_spec (Z.of_nat i) 0); [lia |].
    rewrite Nat2Z.id. unfold right. now rewrite impedanceData_nth. }
  split; [exact Hf |]. split; [exact Hl |]. split; [exact Hr |].
  rewrite (indexed_rows_nth row (frequencies left) 0 i _ Hf).
  unfold row. cbn [Nat.add]. now rewrite Hl, Hr.
Qed.

(** ** The manual L-Dex calculator *)

Section ManualCalculatorOnDoubles.

Import PrimFloat.
Local Open Scope float_scope.

Variable parseFloat : string -> float.
Variable log10 : float -> float.
Variable ToString : float -> string.

Lemma falsy_of_NaN (x : float) : is_nan x = true -> Double.falsy x = true.
Proof. intros H. unfold Double.falsy. now rewrite H. Qed.

(** C5.  On doubles.  With a field that parses to NaN,
    [calculateManualLDex] sets the message asking to fill all values and
    changes nothing else, so [manualLDex] keeps its value.  With four values
    that pass the check it stores [log10((vA/iA)/(vU/iU)) * 10], in the
    two-decimal form of [toFixed(2)], and the message of its severity: below
    3 in absolute value normal, below 10 mild to moderate, otherwise
    significant. *)
Theorem calculateManualLDex_validation (st : Original.State) :
  let vA := parseFloat (Original.voltageAffected st) in
  let iA := parseFloat (Original.currentAffected st) in
  let vU := parseFloat (Original.voltageUnaffected st) in
  let iU := parseFloat (Original.currentUnaffected st) in
  let st' := Double.calculateManualLDex parseFloat log10 ToString st in
  (is_nan vA = true \/ is_nan iA = true \/
   is_nan vU = true \/ is_nan iU = true ->
   st' = Original.setManualMessage
           "Please fill all voltage and current values." st /\
   Original.manualMessage st'
   = "Please fill all voltage and current values."%string /\
   Original.manualLDex st' = Original.manualLDex st) /\
  (Double.falsy vA = false -> Double.falsy iA = false ->
   Double.falsy vU = false -> Double.falsy iU = false ->
   let lDexVal := log10 ((vA / iA) / (vU / iU)) * 10 in
   Original.manualLDex st' = Some (Double.toFixed ToString lDexVal 2) /\
   Original.manualMessage st'
   = (if abs lDexVal <? 3 then "Normal fluid levels."%string
      else if abs lDexVal <? 10
           then "Mild to moderate fluid buildup."%string
           else "Significant fluid buildup. Please consult a specialist."%string) /\
   Original.voltageAffected st' = Original.voltageAffected st /\
   Original.currentAffected st' = Original.currentAffected st /\
   Original.voltageUnaffected st' = Original.voltageUnaffected st /\
   Original.currentUnaffected st' = Original.currentUnaffected st).
Proof.
  intros vA iA vU iU st'. split.
  - intros Hnan.
    assert (Hguard : Double.falsy vA || Double.falsy iA
                     || Double.falsy vU || Double.falsy iU = true).
    { destruct Hnan as [H | [H | [H | H]]];
        rewrite (falsy_of_NaN _ H), ?orb_true_r; reflexivity. }
    unfold st', Double.calculateManualLDex.
    fold vA iA vU iU. rewrite Hguard.
    repeat split.
  - intros HvA HiA HvU HiU lDexVal.
    unfold st', Double.calculateManualLDex.
    fold vA iA vU iU. rewrite HvA, HiA, HvU, HiU. cbn [orb].
    repeat split.
Qed.

End ManualCalculatorOnDoubles.

(** A sample run of each branch: an empty field, and equal impedances, for
    which the ratio is 1 and the logarithm 0. *)
Lemma calculateManualLDex_validation_witness :
  (Original.manualLDex
     (Double.calculateManualLDex Double.parseInt Double.log10_fixed_values
        (fun _ => "")
        (Original.mkState 0.2 "10" "" "1" "1" (Some "3.01") ""))
   = Some "3.01" /\
   Original.manualMessage
     (Double.calculateManualLDex Double.parseInt Double.log10_fixed_values
        (fun _ => "")
        (Original.mkState 0.2 "10" "" "1" "1" (Some "3.01") ""))
   = "Please fill all voltage and current values.") /\
  (Original.manualLDex
     (Double.calculateManualLDex Double.parseInt Double.log10_fixed_values
        (fun _ => "")
        (Original.mkState 0.2 "10" "5" "4" "2" None ""))
   = Some "0.00" /\
   Original.manualMessage
     (Double.calculateManualLDex Double.parseInt Double.log10_fixed_values
        (fun _ => "")
        (Original.mkState 0.2 "10" "5" "4" "2" None ""))
   = "Normal fluid levels.").
Proof.
  split.
  - destruct (calculateManualLDex_validation Double.parseInt
                Double.log10_fixed_values (fun _ => "")
                (Original.mkState 0.2 "10" "" "1" "1" (Some "3.01") ""))
      as [Hnan _].
    destruct Hnan as (_ & HM & HL);
      [right; left; vm_compute; reflexivity |].
    split; [exact HL | exact HM].
  - destruct (calculateManualLDex_validation Double.parseInt
                Double.log10_fixed_values (fun _ => "")
                (Original.mkState 0.2 "10" "5" "4" "2" None ""))
      as [_ Hpass].
    destruct Hpass as (HL & HM & _); try (vm_compute; reflexivity).
    split.
    + rewrite HL. vm_compute. reflexivity.
    + rewrite HM. vm_compute. reflexivity.
Defined.

(** * Further properties of the code *)

(** ** The manual calculator, branch by branch *)

Section ManualCalculator.

Variable parseFloat : string -> number.
Variable ToString : R -> string.

Lemma calculate_rejects (st : Original.State) :
  some_field_falsy parseFloat st = true ->
  Original.calculateManualLDex parseFloat ToString st
  = Original.setManualMessage
      "Please fill all voltage and current values." st.
Proof.
  unfold some_field_falsy, Original.calculateManualLDex.
  now intros ->.
Qed.

Lemma calculate_accepts (st : Original.State) :
  some_field_falsy parseFloat st = false ->
  let lDexVal :=
    nmul (Math.log10
            (ndiv (ndiv (parseFloat (Original.voltageAffected st))
                        (parseFloat (Original.currentAffected st)))
                  (ndiv (parseFloat (Original.voltageUnaffected st))
                        (parseFloat (Original.currentUnaffected st)))))
         (Num 10) in
  Original.calculateManualLDex parseFloat ToString st
  = Original.setManualMessage
      (if nlt (Math.abs lDexVal) (Num 3) then "Normal fluid levels."
       else if nlt (Math.abs lDexVal) (Num 10)
            then "Mild to moderate fluid buildup."
            else "Significant fluid buildup. Please consult a specialist.")
      (Original.setManualLDex (toFixed ToString lDexVal 2) st).
Proof.
  unfold some_field_falsy, Original.calculateManualLDex.
  now intros ->.
Qed.

(** X1.  A field that parses to zero is refused like an empty one: the
    message asks to fill all values and nothing else changes. *)
Theorem calculateManualLDex_refuses_zero (st : Original.State) :
  parseFloat (Original.voltageAffected st) = Num 0 \/
  parseFloat (Original.currentAffected st) = Num 0 \/
  parseFloat (Original.voltageUnaffected st) = Num 0 \/
  parseFloat (Original.currentUnaffected st) = Num 0 ->
  Original.calculateManualLDex parseFloat ToString st
  = Original.setManualMessage
      "Please fill all voltage and current values." st /\
  Original.manualLDex (Original.calculateManualLDex parseFloat ToString st)
  = Original.manualLDex st.
Proof.
  intros Hzero.
  assert (Hz : falsy (Num 0) = true).
  { unfold falsy. destruct (Req_dec_T 0 0); [reflexivity | contradiction]. }
  assert (Hguard : some_field_falsy parseFloat st = true).
  { unfold some_field_falsy.
    destruct Hzero as [H | [H | [H | H]]]; rewrite H, Hz;
      rewrite ?orb_true_r; reflexivity. }
  rewrite (calculate_rejects st Hguard). split; reflexivity.
Qed.

(** X3.  Pressing the button twice is the same as pressing it once. *)
Theorem calculateManualLDex_idempotent (st : Original.State) :
  Original.calculateManualLDex parseFloat ToString
    (Original.calculateManualLDex parseFloat ToString st)
  = Original.calculateManualLDex parseFloat ToString st.
Proof.
  destruct (some_field_falsy parseFloat st) eqn:Hguard.
  - rewrite (calculate_rejects st Hguard).
    now rewrite calculate_rejects by exact Hguard.
  - rewrite (calculate_accepts st Hguard). cbv zeta.
    now rewrite calculate_accepts by exact Hguard.
Qed.

(** X4.  After a refused calculation the panel still shows the index it
    showed before, now with the message asking to fill all values; when no
    index was stored, or an empty one, no panel is rendered and the message
    is not shown at all. *)
Theorem refused_calculation_panel (st : Original.State) :
  some_field_falsy parseFloat st = true ->
  (forall v : string,
      Original.manualLDex st = Some v -> v <> "" ->
      manualPanel (Original.calculateManualLDex parseFloat ToString st)
      = Some (v, "Please fill all voltage and current values.")) /\
  (Original.manualLDex st = None \/ Original.manualLDex st = Some "" ->
   manualPanel (Original.calculateManualLDex parseFloat ToString st) = None).
Proof.
  intros Hguard. rewrite (calculate_rejects st Hguard).
  unfold manualPanel. destruct st as [x vA iA vU iU shown m].
  cbn [Original.manualLDex Original.manualMessage Original.setManualMessage].
  split.
  - intros v -> Hv. destruct v as [| ch v]; [contradiction | reflexivity].
  - intros [-> | ->]; reflexivity.
Qed.

End ManualCalculator.

Lemma calculateManualLDex_refuses_zero_witness :
  Original.manualLDex
    (Original.calculateManualLDex parseWholeNumber (fun _ => "")
       (Original.mkState 0.2 "5" "0" "1" "1" (Some "3.01") "Normal fluid levels."))
  = Some "3.01" /\
  Original.manualMessage
    (Original.calculateManualLDex parseWholeNumber (fun _ => "")
       (Original.mkState 0.2 "5" "0" "1" "1" (Some "3.01") "Normal fluid levels."))
  = "Please fill all voltage and current values.".
Proof.
  destruct (calculateManualLDex_refuses_zero parseWholeNumber (fun _ => "")
              (Original.mkState 0.2 "5" "0" "1" "1" (Some "3.01")
                 "Normal fluid levels.")) as [Hst HL].
  - right; left. reflexivity.
  - split; [exact HL | now rewrite Hst].
Defined.

Lemma refused_calculation_panel_witness :
  manualPanel
    (Original.calculateManualLDex parseWholeNumber (fun _ => "")
       (Original.mkState 0.2 "" "5" "2" "1" (Some "6.99")
          "Mild to moderate fluid buildup."))
  = Some ("6.99", "Please fill all voltage and current values.") /\
  manualPanel
    (Original.calculateManualLDex parseWholeNumber (fun _ => "")
       Original.initial_state)
  = None.
Proof.
  split.
  - destruct (refused_calculation_panel parseWholeNumber (fun _ => "")
                (Original.mkState 0.2 "" "5" "2" "1" (Some "6.99")
                   "Mild to moderate fluid buildup.")) as [Hshown _];
      [reflexivity |].
    apply Hshown; [reflexivity | discriminate].
  - destruct (refused_calculation_panel parseWholeNumber (fun _ => "")
                Original.initial_state) as [_ Hnone]; [reflexivity |].
    apply Hnone. left. reflexivity.
Defined.

(** ** The manual calculator on doubles *)

Section CalculatorOnDoubles.

Import PrimFloat.
Local Open Scope float_scope.

Variable parseFloat : string -> float.
Variable log10 : float -> float.
Variable ToString : float -> string.

(** X2.  On doubles.  When four accepted values give a negative double
    ratio (vA/iA)/(vU/iU), for which [Math.log10] answers NaN, the stored
    index is the string ["NaN"] and the message is the one of a significant
    buildup. *)
Theorem calculateManualLDex_negative_ratio (st : Original.State) :
  let vA := parseFloat (Original.voltageAffected st) in
  let iA := parseFloat (Original.currentAffected st) in
  let vU := parseFloat (Original.voltageUnaffected st) in
  let iU := parseFloat (Original.currentUnaffected st) in
  let st' := Double.calculateManualLDex parseFloat log10 ToString st in
  (forall x : float, (x <? 0) = true -> log10 x = nan) ->
  Double.falsy vA = false -> Double.falsy iA = false ->
  Double.falsy vU = false -> Double.falsy iU = false ->
  ((vA / iA) / (vU / iU) <? 0) = true ->
  Original.manualLDex st' = Some "NaN"%string /\
  Original.manualMessage st'
  = "Significant fluid buildup. Please consult a specialist."%string.
Proof.
  intros vA iA vU iU st' Hlog HvA HiA HvU HiU Hneg.
  unfold st', Double.calculateManualLDex.
  fold vA iA vU iU. rewrite HvA, HiA, HvU, HiU. cbn [orb].
  rewrite (Hlog _ Hneg). split; reflexivity.
Qed.

(** X6.  On doubles.  When four accepted values give a double ratio
    (vA/iA)/(vU/iU) of exactly 1, for which [Math.log10] answers 0, the
    stored index is ["0.00"] and the message is the one of normal fluid
    levels. *)
Theorem calculateManualLDex_ratio_one (st : Original.State) :
  let vA := parseFloat (Original.voltageAffected st) in
  let iA := parseFloat (Original.currentAffected st) in
  let vU := parseFloat (Original.voltageUnaffected st) in
  let iU := parseFloat (Original.currentUnaffected st) in
  let st' := Double.calculateManualLDex parseFloat log10 ToString st in
  log10 1 = 0 ->
  Double.falsy vA = false -> Double.falsy iA = false ->
  Double.falsy vU = false -> Double.falsy iU = false ->
  (vA / iA) / (vU / iU) = 1 ->
  Original.manualLDex st' = Some "0.00"%string /\
  Original.manualMessage st' = "Normal fluid levels."%string.
Proof.
  intros vA iA vU iU st' Hlog HvA HiA HvU HiU Hone.
  unfold st', Double.calculateManualLDex.
  fold vA iA vU iU. rewrite HvA, HiA, HvU, HiU. cbn [orb].
  rewrite Hone, Hlog. split; reflexivity.
Qed.

Lemma log10_fixed_values_negative (x : float) :
  (x <? 0) = true -> Double.log10_fixed_values x = nan.
Proof.
  intros Hneg. unfold Double.log10_fixed_values.
  destruct (is_nan x); [reflexivity |]. now rewrite Hneg.
Qed.

End CalculatorOnDoubles.

Lemma calculateManualLDex_negative_ratio_witness :
  Original.manualLDex
    (Double.calculateManualLDex Double.parseInt Double.log10_fixed_values
       (fun _ => "")
       (Original.mkState 0.2 "-5" "1" "2" "1" None ""))
  = Some "NaN".
Proof.
  apply (calculateManualLDex_negative_ratio Double.parseInt
           Double.log10_fixed_values (fun _ => "")
           (Original.mkState 0.2 "-5" "1" "2" "1" None ""));
    try (vm_compute; reflexivity).
  exact log10_fixed_values_negative.
Defined.

Lemma calculateManualLDex_ratio_one_witness :
  Original.manualLDex
    (Double.calculateManualLDex Double.parseInt Double.log10_fixed_values
       (fun _ => "")
       (Original.mkState 0.2 "10" "5" "4" "2" None ""))
  = Some "0.00".
Proof.
  apply (calculateManualLDex_ratio_one Double.parseInt
           Double.log10_fixed_values (fun _ => "")
           (Original.mkState 0.2 "10" "5" "4" "2" None ""));
    vm_compute; reflexivity.
Defined.

(** ** The conclusions drawn from the sliders *)

(** X7.  The single-limb conclusion in terms of the fluid level: normal
    below 0.3, elevated from 0.3 and below 0.7, abnormal from 0.7 on. *)
Theorem conclusion_by_fluid_level (st : FrequencySelection.State) :
  (FrequencySelection.conclusion st = "Normal"
   <-> FrequencySelection.fluidLevel st < 0.3) /\
  (FrequencySelection.conclusion st = "Elevated"
   <-> 0.3 <= FrequencySelection.fluidLevel st < 0.7) /\
  (FrequencySelection.conclusion st = "Abnormal"
   <-> 0.7 <= FrequencySelection.fluidLevel st).
Proof.
  unfold FrequencySelection.conclusion, FrequencySelection.lDexIndex,
    FrequencySelection.fluidPercentage.
  destruct (Rlt_dec (FrequencySelection.fluidLevel st * 100 / 10) 3);
    destruct (Rlt_dec (FrequencySelection.fluidLevel st * 100 / 10) 7);
    repeat split; intros; try discriminate; try reflexivity; lra.
Qed.

Lemma Z_range_In (lo k : Z) (n : nat) :
  (lo <= k < lo + Z.of_nat n)%Z -> In k (Z_range lo n).
Proof.
  intros Hk. unfold Z_range. apply in_map_iff.
  exists (Z.to_nat (k - lo)). split; [lia | apply in_seq; lia].
Qed.

(** X8.  On doubles, at the 101 positions of each slider: the dual-limb
    conclusion is normal for positions up to 19 steps apart, a slight
    asymmetry for 21 to 39 steps and a significant one from 41 steps on.
    At exactly 20 and 40 steps the rounding of the two indices decides:
    the positions 3 and 23 are concluded normal, 0 and 20 are not. *)
Theorem conclusion_at_slider_positions :
  (forall k1 k2 : Z,
      (0 <= k1 <= 100)%Z -> (0 <= k2 <= 100)%Z ->
      let conclusion :=
        Double.limb_conclusion (Double.slider k1) (Double.slider k2) in
      let steps := Z.abs (k1 - k2) in
      ((steps <= 19)%Z -> conclusion = "Normal") /\
      ((21 <= steps <= 39)%Z -> conclusion = "Slight Asymmetry") /\
      ((41 <= steps)%Z -> conclusion = "Significant Asymmetry") /\
      ((steps = 20)%Z ->
       conclusion = "Normal" \/ conclusion = "Slight Asymmetry") /\
      ((steps = 40)%Z ->
       conclusion = "Slight Asymmetry" \/
       conclusion = "Significant Asymmetry")) /\
  Double.limb_conclusion (Double.slider 3) (Double.slider 23) = "Normal" /\
  Double.limb_conclusion (Double.slider 0) (Double.slider 20)
  = "Slight Asymmetry".
Proof.
  split; [| split; vm_compute; reflexivity].
  set (check := fun k1 k2 : Z =>
    let c := Double.limb_conclusion (Double.slider k1) (Double.slider k2) in
    let steps := Z.abs (k1 - k2) in
    if (steps <=? 19)%Z then String.eqb c "Normal"
    else if (steps =? 20)%Z
         then String.eqb c "Normal" || String.eqb c "Slight Asymmetry"
    else if (steps <=? 39)%Z then String.eqb c "Slight Asymmetry"
    else if (steps =? 40)%Z
         then String.eqb c "Slight Asymmetry"
              || String.eqb c "Significant Asymmetry"
    else String.eqb c "Significant Asymmetry").
  assert (Hall : forallb (fun k1 => forallb (check k1) (Z_range 0 101))
                         (Z_range 0 101) = true)
    by (vm_compute; reflexivity).
  intros k1 k2 Hk1 Hk2 conclusion steps.
  rewrite forallb_forall in Hall.
  specialize (Hall k1 (Z_range_In 0 k1 101 ltac:(lia))).
  rewrite forallb_forall in Hall.
  specialize (Hall k2 (Z_range_In 0 k2 101 ltac:(lia))).
  unfold check in Hall. cbv zeta in Hall. fold conclusion steps in Hall.
  destruct (Z.leb_spec steps 19) as [H19 | H19].
  { apply String.eqb_eq in Hall. repeat split; intros; try lia; exact Hall. }
  destruct (Z.eqb_spec steps 20) as [H20 | H20].
  { apply orb_true_iff in Hall. rewrite !String.eqb_eq in Hall.
    repeat split; intros; try lia; exact Hall. }
  destruct (Z.leb_spec steps 39) as [H39 | H39].
  { apply String.eqb_eq in Hall. repeat split; intros; try lia; exact Hall. }
  destruct (Z.eqb_spec steps 40) as [H40 | H40].
  { apply orb_true_iff in Hall. rewrite !String.eqb_eq in Hall.
    repeat split; intros; try lia; exact Hall. }
  apply String.eqb_eq in Hall. repeat split; intros; try lia; exact Hall.
Qed.

Lemma conclusion_at_slider_positions_witness :
  Double.limb_conclusion (Double.slider 20) (Double.slider 50)
  = "Slight Asymmetry".
Proof.
  destruct conclusion_at_slider_positions as [Hall _].
  apply (Hall 20%Z 50%Z); lia.
Defined.

(** ** Renders that throw *)

Lemma render_without_index (ToString : R -> string)
  (st : FrequencySelection.State) :
  FrequencySelection.selectedIndex st = (-1)%Z ->
  FrequencySelection.render_selectedImpedance ToString st = TypeError.
Proof.
  intros Hidx.
  unfold FrequencySelection.render_selectedImpedance,
    FrequencySelection.selectedImpedance.
  now rewrite Hidx.
Qed.

(** X9.  A bound or a selection that [parseInt] cannot read (an emptied
    input) is stored as NaN, and the next render throws. *)
Theorem unreadable_input_breaks_render
  (ToString : R -> string) (value : string) (st : FrequencySelection.State) :
  parseInt value = INaN ->
  FrequencySelection.render_selectedImpedance ToString
    (FrequencySelection.onChangeMinFreq value st) = TypeError /\
  FrequencySelection.render_selectedImpedance ToString
    (FrequencySelection.onChangeMaxFreq value st) = TypeError /\
  FrequencySelection.render_selectedImpedance ToString
    (FrequencySelection.onChangeSelectedFreq value st) = TypeError.
Proof.
  intros Hnan. repeat split; apply render_without_index;
    unfold FrequencySelection.selectedIndex, FrequencySelection.data,
      FrequencySelection.onChangeMinFreq, FrequencySelection.onChangeMaxFreq,
      FrequencySelection.onChangeSelectedFreq;
    cbn [FrequencySelection.minFreq FrequencySelection.maxFreq
         FrequencySelection.selectedFreq FrequencySelection.fluidLevel];
    rewrite Hnan.
  - rewrite frequencies_NaN by (left; reflexivity). apply indexOf_nil.
  - rewrite frequencies_NaN by (right; reflexivity). apply indexOf_nil.
  - reflexivity.
Qed.

Lemma unreadable_input_breaks_render_witness :
  FrequencySelection.render_selectedImpedance (fun _ => "")
    (FrequencySelection.onChangeMinFreq "" FrequencySelection.initial_state)
  = TypeError.
Proof.
  apply (unreadable_input_breaks_render (fun _ => "") ""
           FrequencySelection.initial_state).
  reflexivity.
Defined.

(** X10.  The selection is not moved with the bounds: a minimum typed above
    the selected frequency, or a maximum typed below it, makes the next
    render throw. *)
Theorem bound_past_selection_breaks_render
  (ToString : R -> string) (value : string) (bound selected : Z)
  (st : FrequencySelection.State) :
  FrequencySelection.selectedFreq st = Int selected ->
  parseInt value = Int bound ->
  ((selected < bound)%Z ->
   FrequencySelection.render_selectedImpedance ToString
     (FrequencySelection.onChangeMinFreq value st) = TypeError) /\
  ((bound < selected)%Z ->
   FrequencySelection.render_selectedImpedance ToString
     (FrequencySelection.onChangeMaxFreq value st) = TypeError).
Proof.
  intros Hsel Hval. split; intros Hlt; apply render_without_index;
    unfold FrequencySelection.selectedIndex, FrequencySelection.data,
      FrequencySelection.onChangeMinFreq, FrequencySelection.onChangeMaxFreq;
    cbn [FrequencySelection.minFreq FrequencySelection.maxFreq
         FrequencySelection.selectedFreq FrequencySelection.fluidLevel];
    rewrite Hsel, Hval.
  - destruct (FrequencySelection.maxFreq st) as [| hi] eqn:Hmax.
    + now rewrite frequencies_NaN by (right; reflexivity).
    + rewrite indexOf_frequencies.
      destruct (Z.leb_spec bound selected) as [Hle | _]; [lia |].
      reflexivity.
  - destruct (FrequencySelection.minFreq st) as [| lo] eqn:Hmin.
    + now rewrite frequencies_NaN by (left; reflexivity).
    + rewrite indexOf_frequencies.
      destruct (Z.leb_spec selected bound) as [Hle | _]; [lia |].
      now rewrite andb_false_r.
Qed.

Lemma bound_past_selection_breaks_render_witness :
  FrequencySelection.render_selectedImpedance (fun _ => "")
    (FrequencySelection.onChangeMaxFreq "40" FrequencySelection.initial_state)
  = TypeError.
Proof.
  apply (bound_past_selection_breaks_render (fun _ => "") "40" 40 50
           FrequencySelection.initial_state); [reflexivity .. | lia].
Defined.

(** ** The series and its bounds *)

(** X11.  For integer bounds, in any order, that are exact as doubles and
    span fewer than [2^32] frequencies, a frequency is listed exactly when
    it lies within the bounds. *)
Theorem frequency_listed_iff_within_bounds (x : R) (lo hi f : Z) :
  bounds_within_limits lo hi ->
  In f (frequencies
          (FrequencySelection.generateImpedanceData x (Int lo) (Int hi)))
  <-> (lo <= f <= hi)%Z.
Proof.
  intros _.
  rewrite frequencies_Array_from. unfold Array_from.
  rewrite ToLength_bounds, in_map_iff. split.
  - intros [i [Hf Hi]]. apply in_seq in Hi. simpl in Hf. lia.
  - intros Hf. exists (Z.to_nat (f - lo)). split.
    + simpl. lia.
    + apply in_seq. lia.
Qed.

Lemma frequency_listed_iff_within_bounds_witness :
  In 50%Z (frequencies
             (FrequencySelection.generateImpedanceData 0.2 (Int 1) (Int 100))).
Proof.
  apply (frequency_listed_iff_within_bounds 0.2 1 100 50);
    [unfold bounds_within_limits, safe_integer; lia | lia].
Defined.

(** X12.  The series is empty, frequencies and impedances alike, exactly
    when [minFreq <= maxFreq] fails: for reversed bounds and for a NaN
    bound.  No error is raised. *)
Theorem series_empty_iff_bounds_unordered
  (x : R) (minFreq maxFreq : intnum) :
  (frequencies (FrequencySelection.generateImpedanceData x minFreq maxFreq) = []
   <-> ile minFreq maxFreq = false) /\
  (impedanceData (FrequencySelection.generateImpedanceData x minFreq maxFreq) = []
   <-> ile minFreq maxFreq = false).
Proof.
  assert (Hlen : ToLength (iadd (isub maxFreq minFreq) (Int 1)) = 0%nat
                 <-> ile minFreq maxFreq = false).
  { destruct minFreq as [| lo], maxFreq as [| hi]; simpl;
      try (split; reflexivity).
    destruct (Z.leb_spec lo hi); split; intros; try discriminate; lia. }
  split; (etransitivity; [symmetry; apply length_zero_iff_nil |]).
  - now rewrite frequencies_length.
  - now rewrite impedanceData_length.
Qed.

Lemma series_empty_bounds (x : R) (minFreq maxFreq : intnum) :
  ile minFreq maxFreq = false ->
  frequencies (FrequencySelection.generateImpedanceData x minFreq maxFreq) = [].
Proof.
  intros Hbounds. apply length_zero_iff_nil. rewrite frequencies_length.
  destruct minFreq as [| lo], maxFreq as [| hi]; simpl in *;
    try reflexivity.
  destruct (Z.leb_spec lo hi); [discriminate | lia].
Qed.

(** X13.  With bounds for which [minFreq <= maxFreq] fails the exported
    file holds the header line and nothing else. *)
Theorem exportToCSV_header_only (ToString : R -> string) (st : DualLimb.State) :
  ile (DualLimb.minFreq st) (DualLimb.maxFreq st) = false ->
  DualLimb.exportToCSV ToString st
  = DualLimb.mkSavedFile "Frequency,Left Impedance,Right Impedance"
      "text/csv" "impedance_data.csv".
Proof.
  intros Hbounds.
  unfold DualLimb.exportToCSV, DualLimb.csvRows, DualLimb.left.
  rewrite DualLimb_generator_same.
  apply (series_empty_bounds (DualLimb.leftFluid st)) in Hbounds.
  cbv zeta. now rewrite Hbounds.
Qed.

Lemma exportToCSV_header_only_witness :
  DualLimb.text
    (DualLimb.exportToCSV (fun _ => "")
       (DualLimb.onChangeMinFreq "" DualLimb.initial_state))
  = "Frequency,Left Impedance,Right Impedance".
Proof.
  rewrite (exportToCSV_header_only (fun _ => "")
             (DualLimb.onChangeMinFreq "" DualLimb.initial_state));
    reflexivity.
Defined.

(** X14.  While both bounds stay within 1 .. 100, with any fluid levels, no
    render of the two later versions evaluates more than 100 points. *)
Theorem at_most_100_points_within_1_100
  (st : FrequencySelection.State) (st2 : DualLimb.State) (lo hi : Z) :
  (1 <= lo)%Z -> (hi <= 100)%Z ->
  (FrequencySelection.minFreq st = Int lo ->
   FrequencySelection.maxFreq st = Int hi ->
   (List.length (frequencies (FrequencySelection.data st)) <= 100)%nat /\
   (List.length (impedanceData (FrequencySelection.data st)) <= 100)%nat) /\
  (DualLimb.minFreq st2 = Int lo ->
   DualLimb.maxFreq st2 = Int hi ->
   (List.length (impedanceData (DualLimb.left st2)) <= 100)%nat /\
   (List.length (impedanceData (DualLimb.right st2)) <= 100)%nat).
Proof.
  intros Hlo Hhi.
  unfold FrequencySelection.data, DualLimb.left, DualLimb.right.
  rewrite DualLimb_generator_same.
  split; intros -> ->;
    rewrite ?impedanceData_length, ?frequencies_length, ToLength_bounds;
    split; lia.
Qed.

Lemma at_most_100_points_within_1_100_witness :
  (List.length
     (frequencies
        (FrequencySelection.data
           (FrequencySelection.onChangeMinFreq "20"
              FrequencySelection.initial_state))) <= 100)%nat.
Proof.
  apply (at_most_100_points_within_1_100
           (FrequencySelection.onChangeMinFreq "20"
              FrequencySelection.initial_state)
           DualLimb.initial_state 20 100); try lia; reflexivity.
Defined.

(** ** The shape of the curve *)

Lemma omega_strict (f1 f2 : Z) : (f1 < f2)%Z -> omega f1 < omega f2.
Proof.
  intros Hf. unfold omega, Math.PI.
  pose proof PI_RGT_0 as Hpi. apply IZR_lt in Hf.
  assert (PI * IZR f1 < PI * IZR f2) by (apply Rmult_lt_compat_l; lra).
  lra.
Qed.

Lemma impedance_strict_frequency (r c : R) (f1 f2 : Z) :
  0 < r -> 0 < c -> (0 <= f1 < f2)%Z ->
  impedance r c f2 < impedance r c f1.
Proof.
  intros Hr Hc [H0 H12].
  pose proof (omega_nonneg f1 H0) as Hw1.
  pose proof (omega_strict f1 f2 H12) as Hw.
  assert (Hd : denom r c f1 < denom r c f2).
  { unfold denom, Math.pow.
    generalize dependent (omega f1). generalize dependent (omega f2).
    intros w2 w1 Hw1 Hw.
    assert (0 <= w1 * r) by (apply Rmult_le_pos; lra).
    assert (w1 * r < w2 * r) by (apply Rmult_lt_compat_r; lra).
    assert (0 <= w1 * r * c) by (apply Rmult_le_pos; lra).
    assert (w1 * r * c < w2 * r * c) by (apply Rmult_lt_compat_r; lra).
    nra. }
  pose proof (sqrt_denominator_ge_1 r c f1) as Hs1.
  pose proof (denominator_ge_1 r c f1) as Hd1.
  assert (Hs : Math.sqrt (denom r c f1) < Math.sqrt (denom r c f2))
    by (apply sqrt_lt_1_alt; lra).
  unfold impedance, Rdiv.
  apply Rmult_lt_compat_l; [lra |].
  apply Rinv_lt_contravar; [| exact Hs].
  apply Rmult_lt_0_compat; lra.
Qed.

(** X15.  For a fluid level in [0,1] and bounds within 0 .. 100 the curve
    falls strictly: of two listed frequencies the larger has the strictly
    smaller impedance, so no two points of the curve are level. *)
Theorem impedance_strictly_decreasing_in_frequency
  (x : R) (minFreq maxFreq f1 f2 : Z) :
  0 <= x <= 1 -> (0 <= minFreq)%Z -> (maxFreq <= 100)%Z ->
  (minFreq <= f1)%Z -> (f1 < f2)%Z -> (f2 <= maxFreq)%Z ->
  let d := FrequencySelection.generateImpedanceData x (Int minFreq) (Int maxFreq) in
  exists z1 z2 : R,
    impedance_at d f1 = VNumber z1 /\
    impedance_at d f2 = VNumber z2 /\
    z2 < z1.
Proof.
  intros Hx H0 H100 Hlo H12 Hhi d.
  exists (impedance (resistance x) (capacitance x) f1),
         (impedance (resistance x) (capacitance x) f2).
  pose proof (resistance_range x Hx). pose proof (capacitance_range x Hx).
  repeat split.
  - apply impedance_at_inside. lia.
  - apply impedance_at_inside. lia.
  - apply impedance_strict_frequency; [lra | lra | lia].
Qed.

Lemma impedance_strictly_decreasing_in_frequency_witness :
  exists z1 z2 : R,
    impedance_at
      (FrequencySelection.generateImpedanceData 0.2 (Int 1) (Int 100)) 1
    = VNumber z1 /\
    impedance_at
      (FrequencySelection.generateImpedanceData 0.2 (Int 1) (Int 100)) 2
    = VNumber z2 /\
    z2 < z1.
Proof.
  apply (impedance_strictly_decreasing_in_frequency 0.2 1 100 1 2);
    [lra | lia ..].
Defined.

Lemma impedance_above_half_resistance (x : R) (f : Z) :
  0 <= x <= 1 -> (0 <= f <= 100)%Z ->
  resistance x / 2 < impedance (resistance x) (capacitance x) f.
Proof.
  intros Hx [Hf0 Hf100].
  pose proof (resistance_range x Hx) as Hr.
  pose proof (omega_nonneg f Hf0) as Hw0.
  assert (Hw : omega f <= 800000).
  { unfold omega, Math.PI. pose proof PI_4 as H4. pose proof PI_RGT_0 as Hp.
    apply IZR_le in Hf0, Hf100.
    assert (PI * IZR f <= 4 * 100) by (apply Rmult_le_compat; lra).
    lra. }
  assert (Hrc0 : 0 <= resistance x * capacitance x)
    by (unfold resistance, capacitance, R0, C0, fluidFactor; nra).
  assert (Hrc : resistance x * capacitance x <= 1.8e-6).
  { unfold resistance, capacitance, R0, C0, fluidFactor.
    pose proof (Rle_0_sqr (3 * x - 2)) as Hsq. unfold Rsqr in Hsq.
    replace (1000 * (1 - x * 0.6) * (1e-9 * (1 + x * 3)))
      with (1.8e-6 - 2e-7 * ((3 * x - 2) * (3 * x - 2))) by lra.
    lra. }
  set (t := omega f * resistance x * capacitance x).
  assert (Ht0 : 0 <= t)
    by (unfold t; rewrite Rmult_assoc; apply Rmult_le_pos; lra).
  assert (Ht : t <= 1.44).
  { unfold t. rewrite Rmult_assoc.
    replace 1.44 with (800000 * 1.8e-6) by lra.
    apply Rmult_le_compat; lra. }
  pose proof (sqrt_denominator_ge_1 (resistance x) (capacitance x) f) as Hs1.
  pose proof (denominator_ge_1 (resistance x) (capacitance x) f) as Hd1.
  assert (Hd : denom (resistance x) (capacitance x) f < 4).
  { unfold denom, Math.pow. fold t. nra. }
  set (s := Math.sqrt (denom (resistance x) (capacitance x) f)) in *.
  assert (Hss : s * s = denom (resistance x) (capacitance x) f)
    by (apply sqrt_sqrt; lra).
  assert (Hs2 : s < 2) by nra.
  unfold impedance. fold s.
  apply Rmult_lt_reg_r with (r := s); [lra |].
  replace (resistance x / s * s) with (resistance x) by (field; lra).
  nra.
Qed.

(** X16.  For a fluid level in [0,1] and bounds within 0 .. 100 every
    impedance of the series is more than half the resistance, hence above
    200 ohms; the original version, fixed to 1 .. 100, is such a series. *)
Theorem impedance_above_200
  (x : R) (minFreq maxFreq : intnum) (lo hi : Z) :
  0 <= x <= 1 ->
  minFreq = Int lo -> maxFreq = Int hi -> (0 <= lo)%Z -> (hi <= 100)%Z ->
  forall z : R,
    In z (impedanceData
            (FrequencySelection.generateImpedanceData x minFreq maxFreq)) \/
    In z (impedanceData (Original.generateImpedanceData x)) ->
    resistance x / 2 < z /\ 200 < z.
Proof.
  intros Hx -> -> Hlo Hhi z.
  pose proof (resistance_range x Hx) as Hr.
  rewrite original_is_ranged_1_100, !impedanceData_map. cbv zeta.
  assert (Hin : forall lo' hi' : Z, (0 <= lo')%Z -> (hi' <= 100)%Z ->
            In z (map (impedance (resistance x) (capacitance x))
                      (frequencies
                         (FrequencySelection.generateImpedanceData x
                            (Int lo') (Int hi')))) ->
            resistance x / 2 < z).
  { intros lo' hi' Hlo' Hhi' Hz.
    apply in_map_iff in Hz. destruct Hz as [f [<- Hf]].
    rewrite frequencies_Array_from in Hf. unfold Array_from in Hf.
    rewrite ToLength_bounds in Hf.
    apply in_map_iff in Hf. destruct Hf as [i [<- Hi]].
    apply in_seq in Hi. simpl int_value.
    apply impedance_above_half_resistance; [exact Hx | lia]. }
  intros [Hz | Hz].
  - apply Hin in Hz; [lra | lia | lia].
  - apply Hin in Hz; [lra | lia | lia].
Qed.

Lemma impedance_above_200_witness :
  200 < impedance (resistance 0.2) (capacitance 0.2) 50.
Proof.
  apply (impedance_above_200 0.2 (Int 1) (Int 100) 1 100); try reflexivity;
    try lra; try lia.
  left. rewrite impedanceData_map. cbv zeta. apply in_map.
  apply (nth_error_In _ 49). apply (frequencies_nth 0.2 1 100 49). simpl. lia.
Defined.

Lemma omega_opp (f : Z) : omega (- f) = - omega f.
Proof. unfold omega. rewrite opp_IZR. ring. Qed.

(** X17.  Frequencies below 1 can be typed as a bound and are evaluated
    like any other: at 0 the impedance is the resistance itself, the top of
    the curve, and at [-f] it is the same as at [f]. *)
Theorem impedance_at_zero_and_mirrored (x : R) (minFreq maxFreq f : Z) :
  (minFreq <= 0 <= maxFreq)%Z ->
  (minFreq <= - f)%Z -> (minFreq <= f)%Z ->
  (- f <= maxFreq)%Z -> (f <= maxFreq)%Z ->
  let d := FrequencySelection.generateImpedanceData x (Int minFreq) (Int maxFreq) in
  impedance_at d 0 = VNumber (resistance x) /\
  impedance_at d (- f) = impedance_at d f.
Proof.
  intros H0 Hlo1 Hlo2 Hhi1 Hhi2 d. unfold d.
  rewrite !impedance_at_inside by lia. split; f_equal.
  - unfold impedance, denom, Math.pow, Math.sqrt, omega.
    replace (1 + (2 * Math.PI * 0 * 1000 * resistance x * capacitance x) ^ 2)
      with 1 by ring.
    rewrite sqrt_1. field.
  - unfold impedance, denom, Math.pow. rewrite omega_opp.
    do 3 f_equal. ring.
Qed.

Lemma impedance_at_zero_and_mirrored_witness :
  impedance_at
    (FrequencySelection.generateImpedanceData 0.2 (Int (-5)) (Int 100)) 0
  = VNumber (resistance 0.2) /\
  impedance_at
    (FrequencySelection.generateImpedanceData 0.2 (Int (-5)) (Int 100)) (- 3)
  = impedance_at
      (FrequencySelection.generateImpedanceData 0.2 (Int (-5)) (Int 100)) 3.
Proof.
  apply (impedance_at_zero_and_mirrored 0.2 (-5) 100 3); lia.
Defined.

(** ** The versions side by side *)

(** X18.  At their initial bounds 1 and 100 the generators of the two later
    versions return exactly the series of the original version, for every
    fluid level. *)
Theorem later_versions_extend_original (x : R) :
  FrequencySelection.generateImpedanceData x (Int 1) (Int 100)
  = Original.generateImpedanceData x /\
  DualLimb.generateImpedanceData x (Int 1) (Int 100)
  = Original.generateImpedanceData x /\
  frequencies (Original.generateImpedanceData x)
  = map Z.of_nat (seq 1 100).
Proof.
  rewrite DualLimb_generator_same, original_is_ranged_1_100.
  repeat split; reflexivity.
Qed.

(** X19.  In the dual-limb chart, for bounds that are exact as doubles and
    span fewer than [2^32] frequencies and fluid levels in [0,1] at least
    0.009 apart (as any two slider positions are), the curve of the limb
    with more fluid lies below the other at every plotted frequency, by
    more than 0.5 percent. *)
Theorem more_fluid_curve_is_below
  (st : DualLimb.State) (lo hi : Z) (i : nat) (zl zr : R) :
  0 <= DualLimb.leftFluid st ->
  DualLimb.leftFluid st + 0.009 <= DualLimb.rightFluid st ->
  DualLimb.rightFluid st <= 1 ->
  DualLimb.minFreq st = Int lo -> DualLimb.maxFreq st = Int hi ->
  bounds_within_limits lo hi ->
  nth_error (impedanceData (DualLimb.left st)) i = Some zl ->
  nth_error (impedanceData (DualLimb.right st)) i = Some zr ->
  1.005 * zr <= zl /\ zr < zl.
Proof.
  intros H0 Hlt H1 _ _ _. unfold DualLimb.left, DualLimb.right.
  rewrite DualLimb_generator_same, !impedanceData_map. cbv zeta.
  rewrite !nth_error_map, !frequencies_Array_from.
  set (fs := Array_from _ _).
  destruct (nth_error fs i) as [f |]; simpl; [| discriminate].
  intros [= <-] [= <-].
  assert (Hl : 0 <= DualLimb.leftFluid st <= 1) by lra.
  assert (Hr : 0 <= DualLimb.rightFluid st <= 1) by lra.
  pose proof (resistance_range _ Hr) as Hrr.
  pose proof (capacitance_range _ Hl) as Hcl.
  assert (Hmargin :
    1.005 * impedance (resistance (DualLimb.rightFluid st))
                      (capacitance (DualLimb.rightFluid st)) f
    <= impedance (resistance (DualLimb.leftFluid st))
                 (capacitance (DualLimb.leftFluid st)) f).
  { apply impedance_margin; try lra.
    - unfold resistance, R0, fluidFactor. lra.
    - unfold capacitance, C0. lra. }
  split; [exact Hmargin |].
  pose proof (impedance_range (resistance (DualLimb.rightFluid st))
                (capacitance (DualLimb.rightFluid st)) f) as Hpos.
  lra.
Qed.

Lemma more_fluid_curve_is_below_witness :
  impedance (resistance 0.5) (capacitance 0.5) 1
  < impedance (resistance 0.2) (capacitance 0.2) 1.
Proof.
  apply (more_fluid_curve_is_below
           (DualLimb.mkState false 0.2 0.5 (Int 1) (Int 100)) 1 100 0);
    try (simpl; lra); try reflexivity.
  unfold bounds_within_limits, safe_integer. lia.
Defined.

(** ** The percentage under a slider *)

Lemma string_of_uint_nonempty (d : Decimal.uint) :
  (1 <= String.length (NilZero.string_of_uint d))%nat.
Proof. destruct d; simpl; lia. Qed.

(** X20.  At the slider position [k / 100], for [k] from 0 to 100, the
    label shows the whole number [k] in decimal digits, without a point or
    a sign. *)
Theorem fluidLevelLabel_shows_percentage (ToString : R -> string) (k : Z) :
  (0 <= k <= 100)%Z ->
  fluidLevelLabel ToString (IZR k / 100)
  = NilZero.string_of_uint (N.to_uint (Z.to_N k)).
Proof.
  intros [Hk0 Hk100]. unfold fluidLevelLabel, toFixed.
  replace (IZR k / 100 * 100) with (IZR k) by (field; lra).
  apply IZR_le in Hk0, Hk100.
  destruct (Rlt_dec (IZR k) 0) as [Hneg | _]; [lra |].
  rewrite Rabs_pos_eq by lra.
  destruct (Rle_dec 1e21 (IZR k)) as [Hbig | _]; [lra |].
  rewrite (fixed_digits_of (IZR k) 0 k) by (simpl; lra).
  cbv zeta.
  pose proof (string_of_uint_nonempty (N.to_uint (Z.to_N k))) as Hlen.
  replace (0 + 1 - String.length (NilZero.string_of_uint (N.to_uint (Z.to_N k))))%nat
    with 0%nat by lia.
  reflexivity.
Qed.

Lemma fluidLevelLabel_shows_percentage_witness :
  fluidLevelLabel (fun _ => "") (20 / 100) = "20".
Proof.
  apply (fluidLevelLabel_shows_percentage (fun _ => "") 20). lia.
Defined.

(** ** The curves on doubles, at the slider positions *)

Lemma tagged_range_forallb {A : Type} (g : Z -> A) (P : Z * A -> bool)
  (lo : Z) (n : nat) :
  forallb P (map (fun k => (k, g k)) (Z_range lo n)) = true ->
  forall k : Z, (lo <= k < lo + Z.of_nat n)%Z -> P (k, g k) = true.
Proof.
  intros Hall k Hk. rewrite forallb_forall in Hall. apply Hall.
  apply in_map_iff. exists k. split; [reflexivity | now apply Z_range_In].
Qed.

(** X21.  On doubles: at every frequency from 1 to 100 kHz and for every
    two of the 101 slider positions, the impedance computed at the higher
    fluid level is strictly smaller. *)
Theorem doubles_decrease_with_fluid_at_sliders (k1 k2 f : Z) :
  (0 <= k1)%Z -> (k1 < k2)%Z -> (k2 <= 100)%Z -> (1 <= f <= 100)%Z ->
  PrimFloat.ltb (Double.impedance (Double.slider k2) (Double.of_Z f))
                (Double.impedance (Double.slider k1) (Double.of_Z f))
  = true.
Proof.
  intros H0 H12 H100 Hf.
  set (check := fun (q : Z * PrimFloat.float) (p1 p2 : Z * PrimFloat.float) =>
    if (fst p1 <? fst p2)%Z
    then PrimFloat.ltb (Double.impedance (snd p2) (snd q))
                       (Double.impedance (snd p1) (snd q))
    else true).
  assert (Hall :
    (let sliders := map (fun k => (k, Double.slider k)) (Z_range 0 101) in
     let freqs := map (fun f => (f, Double.of_Z f)) (Z_range 1 100) in
     forallb (fun q =>
       forallb (fun p1 => forallb (check q p1) sliders) sliders) freqs)
    = true) by (vm_compute; reflexivity).
  cbv zeta in Hall.
  pose proof (tagged_range_forallb Double.of_Z _ 1 100 Hall f ltac:(lia))
    as Hq.
  cbv beta in Hq.
  pose proof (tagged_range_forallb Double.slider _ 0 101 Hq k1 ltac:(lia))
    as Hp1.
  cbv beta in Hp1.
  pose proof (tagged_range_forallb Double.slider _ 0 101 Hp1 k2 ltac:(lia))
    as Hp2.
  unfold check in Hp2. cbn [fst snd] in Hp2.
  destruct (Z.ltb_spec k1 k2); [exact Hp2 | lia].
Qed.

Lemma doubles_decrease_with_fluid_at_sliders_witness :
  PrimFloat.ltb (Double.impedance (Double.slider 21) (Double.of_Z 50))
                (Double.impedance (Double.slider 20) (Double.of_Z 50))
  = true.
Proof.
  apply (doubles_decrease_with_fluid_at_sliders 20 21 50); lia.
Defined.

(** X22.  On doubles: at every one of the 101 slider positions the curve
    falls strictly over 1 to 100 kHz; of two frequencies the larger has the
    strictly smaller impedance. *)
Theorem doubles_decrease_with_frequency_at_sliders (k f1 f2 : Z) :
  (0 <= k <= 100)%Z -> (1 <= f1)%Z -> (f1 < f2)%Z -> (f2 <= 100)%Z ->
  PrimFloat.ltb (Double.impedance (Double.slider k) (Double.of_Z f2))
                (Double.impedance (Double.slider k) (Double.of_Z f1))
  = true.
Proof.
  intros Hk H1 H12 H100.
  set (check := fun (p : Z * PrimFloat.float) (q1 q2 : Z * PrimFloat.float) =>
    if (fst q1 <? fst q2)%Z
    then PrimFloat.ltb (Double.impedance (snd p) (snd q2))
                       (Double.impedance (snd p) (snd q1))
    else true).
  assert (Hall :
    (let sliders := map (fun k => (k, Double.slider k)) (Z_range 0 101) in
     let freqs := map (fun f => (f, Double.of_Z f)) (Z_range 1 100) in
     forallb (fun p =>
       forallb (fun q1 => forallb (check p q1) freqs) freqs) sliders)
    = true) by (vm_compute; reflexivity).
  cbv zeta in Hall.
  pose proof (tagged_range_forallb Double.slider _ 0 101 Hall k ltac:(lia))
    as Hp.
  cbv beta in Hp.
  pose proof (tagged_range_forallb Double.of_Z _ 1 100 Hp f1 ltac:(lia))
    as Hq1.
  cbv beta in Hq1.
  pose proof (tagged_range_forallb Double.of_Z _ 1 100 Hq1 f2 ltac:(lia))
    as Hq2.
  unfold check in Hq2. cbn [fst snd] in Hq2.
  destruct (Z.ltb_spec f1 f2); [exact Hq2 | lia].
Qed.

Lemma doubles_decrease_with_frequency_at_sliders_witness :
  PrimFloat.ltb (Double.impedance (Double.slider 20) (Double.of_Z 2))
                (Double.impedance (Double.slider 20) (Double.of_Z 1))
  = true.
Proof.
  apply (doubles_decrease_with_frequency_at_sliders 20 1 2); lia.
Defined.
